(** * Demand-Spike Early-Warning Agent: a model of [app_with_txt.py]

    The program is a Streamlit script: on every user interaction it runs from
    top to bottom, reads the widgets, and talks to three outside services
    (pandas for the CSV, the generative model, SMTP).  The model below follows
    the script block by block.  Python strings are Rocq strings holding the
    UTF-8 bytes of the text; everything the script shows or sends is recorded,
    in program order, in a list of events; outside services are the fields of
    a [world] record, so that every statement holds for whatever they answer. *)

From Stdlib Require Import ZArith String Ascii DecimalString Bool Lia.
From stdpp Require Import gmap strings list.

Open Scope Z_scope.

(** ** Python strings *)

Module PyStr.

(** The double quote, which the string templates of the script contain. *)
Definition dq : string := String "034"%char EmptyString.
(** Line feed. *)
Definition nl : string := String "010"%char EmptyString.

(** [s.startswith(p)] *)
Fixpoint startswith (p s : string) : bool :=
  match p, s with
  | EmptyString, _ => true
  | String a p', String b s' => if Ascii.eqb a b then startswith p' s' else false
  | String _ _, EmptyString => false
  end.

(** [needle in hay] *)
Fixpoint contains (needle hay : string) : bool :=
  startswith needle hay ||
  match hay with
  | EmptyString => false
  | String _ hay' => contains needle hay'
  end.

(** [s.replace(old, new)] for a non-empty [old]: occurrences are found from
    left to right and do not overlap.  [skip] counts the characters of an
    occurrence of [old] still to be dropped. *)
Fixpoint replace_from (old new : string) (skip : nat) (s : string) : string :=
  match s with
  | EmptyString => EmptyString
  | String c s' =>
      match skip with
      | S k => replace_from old new k s'
      | O =>
          if startswith old s
          then new +:+ replace_from old new (Nat.pred (String.length old)) s'
          else String c (replace_from old new O s')
      end
  end.

Definition replace (old new s : string) : string := replace_from old new O s.

(** Python's whitespace ([str.isspace]) in UTF-8: the one-byte characters
    U+0009..U+000D, U+001C..U+0020, the two-byte U+0085 and U+00A0, and the
    three-byte U+1680, U+2000..U+200A, U+2028, U+2029, U+202F, U+205F and
    U+3000. *)
Definition space1 (a : ascii) : bool :=
  let n := N_of_ascii a in
  (((9 <=? n) && (n <=? 13)) || ((28 <=? n) && (n <=? 32)))%N.

Definition space2 (a b : ascii) : bool :=
  let m := N_of_ascii a in
  let n := N_of_ascii b in
  ((m =? 194) && ((n =? 133) || (n =? 160)))%N.

Definition space3 (a b c : ascii) : bool :=
  let l := N_of_ascii a in
  let m := N_of_ascii b in
  let n := N_of_ascii c in
  (((l =? 225) && (m =? 154) && (n =? 128))
   || ((l =? 226) && (m =? 128)
       && (((128 <=? n) && (n <=? 138)) || (n =? 168) || (n =? 169) || (n =? 175)))
   || ((l =? 226) && (m =? 129) && (n =? 159))
   || ((l =? 227) && (m =? 128) && (n =? 128)))%N.

(** [s.lstrip()] *)
Fixpoint lstrip (s : string) : string :=
  match s with
  | EmptyString => s
  | String a r =>
      if space1 a then lstrip r else
      match r with
      | EmptyString => s
      | String b r2 =>
          if space2 a b then lstrip r2 else
          match r2 with
          | EmptyString => s
          | String c r3 => if space3 a b c then lstrip r3 else s
          end
      end
  end.

Fixpoint rev_onto (s acc : string) : string :=
  match s with
  | EmptyString => acc
  | String c s' => rev_onto s' (String c acc)
  end.

Definition rev (s : string) : string := rev_onto s EmptyString.

(** [lstrip] on the mirrored text: the bytes of a character arrive last
    byte first. *)
Fixpoint lstrip_mirrored (s : string) : string :=
  match s with
  | EmptyString => s
  | String a r =>
      if space1 a then lstrip_mirrored r else
      match r with
      | EmptyString => s
      | String b r2 =>
          if space2 b a then lstrip_mirrored r2 else
          match r2 with
          | EmptyString => s
          | String c r3 => if space3 c b a then lstrip_mirrored r3 else s
          end
      end
  end.

(** [s.rstrip()] *)
Definition rstrip (s : string) : string := rev (lstrip_mirrored (rev s)).

(** [s.strip()] *)
Definition strip (s : string) : string := rstrip (lstrip s).

(** [str(n)] for a Python [int]. *)
Definition str_of_int (z : Z) : string := NilZero.string_of_int (Z.to_int z).

(** [sep.join(l)] *)
Fixpoint join (sep : string) (l : list string) : string :=
  match l with
  | [] => EmptyString
  | [x] => x
  | x :: l' => x +:+ sep +:+ join sep l'
  end.

(** The characters of a string, one string per code point: a byte
    [10xxxxxx] continues the character before it. *)
Definition continuation (c : ascii) : bool :=
  let n := N_of_ascii c in ((128 <=? n) && (n <=? 191))%N.

Fixpoint codepoints (s : string) : list string :=
  match s with
  | EmptyString => []
  | String c r =>
      match codepoints r with
      | String d x :: xs =>
          if continuation d then String c (String d x) :: xs
          else String c EmptyString :: String d x :: xs
      | rest => String c EmptyString :: rest
      end
  end.

End PyStr.
Import PyStr.

(** ** Python values and exceptions *)

(** What [json.loads] returns: [None], [bool], [int], [float], [str], [list]
    and [dict].  A float is kept as its [repr], which is also what an
    f-string prints for it; a dict is the list of its items in insertion
    order, with distinct keys. *)
#[warnings="-register-all"]
Inductive json : Type :=
| JNull
| JBool (b : bool)
| JInt (z : Z)
| JFloat (repr : string)
| JStr (s : string)
| JArr (l : list json)
| JObj (items : list (string * json)).

(** The exception classes the script tells apart in its [except] clauses;
    every other class is an [OtherException], and all of them derive from
    [Exception]. *)
Inductive exn_class : Type :=
| KeyError
| TypeError
| JSONDecodeError
| FileNotFoundError
| OtherException (name : string).

(** An exception: its class and [str(e)]. *)
Record exn : Type := Exn { class_of : exn_class; exn_text : string }.

Inductive result (A : Type) : Type :=
| Ok (a : A)
| Raise (e : exn).
Arguments Ok {A} a.
Arguments Raise {A} e.

Definition is_KeyError (e : exn) : bool :=
  match class_of e with KeyError => true | _ => false end.
Definition is_JSONDecodeError (e : exn) : bool :=
  match class_of e with JSONDecodeError => true | _ => false end.
Definition is_FileNotFoundError (e : exn) : bool :=
  match class_of e with FileNotFoundError => true | _ => false end.
Definition is_Exception (e : exn) : bool := true.

Module Py.

(** [bool(v)] *)
Definition truthy (v : json) : bool :=
  match v with
  | JNull => false
  | JBool b => b
  | JInt z => negb (z =? 0)
  | JFloat r => negb (String.eqb r "0.0" || String.eqb r "-0.0")
  | JStr s => negb (String.eqb s EmptyString)
  | JArr l => match l with [] => false | _ => true end
  | JObj items => match items with [] => false | _ => true end
  end.

(** [v == s] for a string literal [s] *)
Definition eq_str (v : json) (s : string) : bool :=
  match v with
  | JStr t => String.eqb t s
  | _ => false
  end.

Fixpoint dict_get (items : list (string * json)) (key : string) : option json :=
  match items with
  | [] => None
  | (k, v) :: items' => if String.eqb k key then Some v else dict_get items' key
  end.

(** [repr(key)] of a key with no quote or escape in it, as [str(KeyError(key))]
    prints it. *)
Definition quoted (key : string) : string := "'" +:+ key +:+ "'".

Definition not_subscriptable (ty : string) : exn :=
  Exn TypeError ("'" +:+ ty +:+ "' object is not subscriptable").
Definition not_iterable (ty : string) : exn :=
  Exn TypeError ("'" +:+ ty +:+ "' object is not iterable").

(** [v[key]] for a string literal [key] *)
Definition getitem (v : json) (key : string) : result json :=
  match v with
  | JObj items =>
      match dict_get items key with
      | Some x => Ok x
      | None => Raise (Exn KeyError (quoted key))
      end
  | JStr _ => Raise (Exn TypeError "string indices must be integers, not 'str'")
  | JArr _ => Raise (Exn TypeError "list indices must be integers or slices, not str")
  | JNull => Raise (not_subscriptable "NoneType")
  | JBool _ => Raise (not_subscriptable "bool")
  | JInt _ => Raise (not_subscriptable "int")
  | JFloat _ => Raise (not_subscriptable "float")
  end.

(** What [for x in v] goes through. *)
Definition iter (v : json) : result (list json) :=
  match v with
  | JArr l => Ok l
  | JObj items => Ok (map (fun kv => JStr (fst kv)) items)
  | JStr s => Ok (map JStr (codepoints s))
  | JNull => Raise (not_iterable "NoneType")
  | JBool _ => Raise (not_iterable "bool")
  | JInt _ => Raise (not_iterable "int")
  | JFloat _ => Raise (not_iterable "float")
  end.

Section Format.
(** [repr] of a [str], which quotes and escapes it. *)
Variable repr_str : string -> string.

(** [repr(v)] *)
Fixpoint repr (v : json) : string :=
  match v with
  | JNull => "None"
  | JBool true => "True"
  | JBool false => "False"
  | JInt z => str_of_int z
  | JFloat r => r
  | JStr s => repr_str s
  | JArr l => "[" +:+ join ", " (map repr l) +:+ "]"
  | JObj items =>
      "{" +:+ join ", " (map (fun kv => repr_str (fst kv) +:+ ": " +:+ repr (snd kv)) items)
          +:+ "}"
  end.

(** [str(v)], which is what [f"{v}"] prints. *)
Definition str (v : json) : string :=
  match v with
  | JStr s => s
  | _ => repr v
  end.
End Format.

End Py.

(** ** Events, outside services and the monad of the script *)

(** An e-mail as [send_email] builds it. *)
Record email_message : Type := Email {
  msg_content : string;
  msg_subject : string;
  msg_from : string;
  msg_to : string
}.

Section Script.

(** A pandas dataframe and a cell of one.  An uploaded file is its text. *)
Context {dataframe scalar : Type}.

(** The [with] blocks of the script. *)
Inductive block : Type :=
| Expander (label : string)
| Spinner (text : string).

(** What a run shows or does, in program order.  The [Smtp] events and
    [GenerateContent] record that the call is made, whatever it answers;
    [CallSendEmail] records that [send_email] is entered. *)
Inductive event : Type :=
| PageConfig (title icon : string)
| Title (s : string)
| Caption (s : string)
| Button (label : string)
| FileUploader (label : string)
| TextInput (label : string)
| Slider (label : string)
| Checkbox (label : string)
| Markdown (s : string)
| Subheader (s : string)
| StWarning (s : string)
| StError (s : string)
| StInfo (s : string)
| StSuccess (s : string)
| StText (s : string)
| StCode (s lang : string)
| StDataframe (df : dataframe)
| LineChart (df : dataframe)
| Enter (b : block)
| Leave (b : block)
| GenerateContent (prompt : string)
| CallSendEmail (recipient subject body : string)
| SmtpConnect (host : string) (port : Z)
| SmtpStartTLS
| SmtpLogin (user password : string)
| SmtpSendMessage (m : email_message)
| SmtpQuit.

(** A model response is known by what reading [response.text] gives. *)
Definition response : Type := result string.

(** The outside of the script: the secrets file, pandas, the model, the
    JSON parser and the SMTP server.  A call that can raise answers a
    [result], or [Some e] for the exception when it returns nothing.

    - [secrets_file]: the content of [.streamlit/secrets.toml], if there is one;
      [missing_secret key]: the text of the [KeyError] for a missing key;
    - [configure]: [genai.configure] and [genai.GenerativeModel] (lines 50-51);
    - [read_csv]: [pd.read_csv] on the text of the uploaded file;
    - [to_datetime df]: [df] after [df['date'] = pd.to_datetime(df['date'])];
    - [unique_skus]: [df['sku'].unique()], and [scalar_str] the [str] of a cell;
    - [rows_of_sku df sku]: [df[df['sku'] == sku].sort_values('date')] for a
      cell, and [rows_of_alert] the same for a value of the reply;
    - [line_chart]: [st.line_chart(sku_data, x='date', y='sales')];
    - [to_string]: [df.to_string()];
    - [generate_content]: [model.generate_content(prompt)];
    - [json_loads]: [json.loads];
    - [repr_str]: [repr] of a [str];
    - [compose]: building the [EmailMessage] and the TLS context (lines 69-74);
    - [smtp_connect], [smtp_starttls], [smtp_login], [smtp_send], [smtp_quit]:
      the steps of the SMTP session (lines 75-78). *)
Record world : Type := World {
  secrets_file : option (gmap string string);
  missing_secret : string -> string;
  configure : string -> option exn;
  read_csv : string -> result dataframe;
  to_datetime : dataframe -> result dataframe;
  unique_skus : dataframe -> result (list scalar);
  scalar_str : scalar -> string;
  rows_of_sku : dataframe -> scalar -> result dataframe;
  rows_of_alert : dataframe -> json -> result dataframe;
  line_chart : dataframe -> option exn;
  to_string : dataframe -> result string;
  generate_content : string -> result response;
  json_loads : string -> result json;
  repr_str : string -> string;
  compose : email_message -> option exn;
  smtp_connect : string -> Z -> option exn;
  smtp_starttls : option exn;
  smtp_login : string -> string -> option exn;
  smtp_send : email_message -> option exn;
  smtp_quit : option exn
}.

(** A computation: the events it produced, and its value or the exception
    that ended it. *)
Definition M (A : Type) : Type := (list event * result A)%type.

Definition ret {A} (a : A) : M A := ([], Ok a).
Definition raise {A} (e : exn) : M A := ([], Raise e).
Definition emit (ev : event) : M unit := ([ev], Ok tt).

Definition bind {A B} (m : M A) (k : A -> M B) : M B :=
  match m with
  | (t, Ok a) => let (t', r) := k a in (t ++ t', r)
  | (t, Raise e) => (t, Raise e)
  end.

Definition lift {A} (r : result A) : M A := ([], r).
Definition check (o : option exn) : M unit :=
  match o with
  | Some e => raise e
  | None => ret tt
  end.

Definition events {A} (m : M A) : list event := fst m.
Definition outcome {A} (m : M A) : result A := snd m.

(** [try: m except C1: h1 except C2: h2 ...]: the first clause whose class
    matches handles the exception. *)
Definition try_except {A} (m : M A) (clauses : list ((exn -> bool) * (exn -> M A))) : M A :=
  match m with
  | (t, Ok a) => (t, Ok a)
  | (t, Raise e) =>
      match List.find (fun c => fst c e) clauses with
      | Some c => let (t', r) := snd c e in (t ++ t', r)
      | None => (t, Raise e)
      end
  end.

(** [with b: m]: the block is left also when [m] raises. *)
Definition within {A} (b : block) (m : M A) : M A :=
  let (t, r) := m in (Enter b :: t ++ [Leave b], r).

End Script.

Arguments event : clear implicits.
Arguments world : clear implicits.
Arguments M : clear implicits.

Declare Scope script_scope.
Delimit Scope script_scope with script.
Notation "x <- m ;; k" := (bind m (fun x => k))
  (at level 100, m at next level, right associativity) : script_scope.
Notation "m ;; k" := (bind m (fun _ => k))
  (at level 100, right associativity) : script_scope.
Open Scope script_scope.

(** ** The script *)

Section App.

Context {dataframe scalar : Type}.
Variable w : world dataframe scalar.

Abbreviation M := (M dataframe).

(** *** [clear_form] (lines 19-27), the [on_click] of the reset button *)

(** What [st.session_state] holds under a key. *)
Inductive widget_value : Type :=
| VStr (s : string)
| VInt (z : Z)
| VBool (b : bool)
| VFile (text : string).

Definition clear_form (session_state : gmap string widget_value)
  : gmap string widget_value :=
  let session_state := <["recipient_email" := VStr EmptyString]> session_state in
  let session_state := <["business_context" := VStr EmptyString]> session_state in
  let session_state := <["alert_slider" := VInt 25]> session_state in
  let session_state := <["slump_checkbox" := VBool false]> session_state in
  let session_state := <["slump_slider" := VInt 25]> session_state in
  if decide (is_Some (session_state !! "auto_send_checkbox"))
  then <["auto_send_checkbox" := VBool false]> session_state
  else session_state.

(** *** [send_email] (lines 59-85) *)

(** [st.secrets[key]], once the secrets file is loaded. *)
Definition secret (secrets : gmap string string) (key : string) : M string :=
  match secrets !! key with
  | Some v => ret v
  | None => raise (Exn KeyError (missing_secret w key))
  end.

(** [with smtplib.SMTP(host, port) as server: body]: leaving the block
    sends QUIT also when [body] raised, and an exception of QUIT replaces
    the one of [body]. *)
Definition with_smtp {A} (host : string) (port : Z) (body : M A) : M A :=
  emit (SmtpConnect host port) ;;
  check (smtp_connect w host port) ;;
  let (t, r) := body in
  (t ++ [SmtpQuit],
   match smtp_quit w with
   | Some e => Raise e
   | None => r
   end).

(** The second [try] of [send_email], lines 69-79. *)
Definition deliver (SENDER_EMAIL SENDER_PASSWORD recipient_email subject body : string)
  : M (bool * string) :=
  let msg := Email body subject SENDER_EMAIL recipient_email in
  check (compose w msg) ;;
  with_smtp "smtp.gmail.com" 587
    (emit SmtpStartTLS ;;
     check (smtp_starttls w) ;;
     emit (SmtpLogin SENDER_EMAIL SENDER_PASSWORD) ;;
     check (smtp_login w SENDER_EMAIL SENDER_PASSWORD) ;;
     emit (SmtpSendMessage msg) ;;
     check (smtp_send w msg)) ;;
  ret (true, "Email sent successfully!").

Definition send_email (secrets : gmap string string)
    (recipient_email subject body : string) : M (bool * string) :=
  emit (CallSendEmail recipient_email subject body) ;;
  credentials <-
    try_except
      (SENDER_EMAIL <- secret secrets "SENDER_EMAIL" ;;
       SENDER_PASSWORD <- secret secrets "SENDER_PASSWORD" ;;
       ret (Some (SENDER_EMAIL, SENDER_PASSWORD)))
      [(is_KeyError, fun _ =>
          emit (StError "Email Send Error: 'SENDER_EMAIL' or 'SENDER_PASSWORD' not found in secrets.") ;;
          emit (StInfo "Please add your dummy email credentials to the .streamlit/secrets.toml file.") ;;
          ret None)] ;;
  match credentials with
  | None => ret (false, "Email credentials not configured in secrets.")
  | Some (SENDER_EMAIL, SENDER_PASSWORD) =>
      try_except
        (deliver SENDER_EMAIL SENDER_PASSWORD recipient_email subject body)
        [(is_Exception, fun e =>
            if contains "Username and Password not accepted" (exn_text e)
            then
              emit (StError "Email Send Error: Your SENDER_EMAIL or SENDER_PASSWORD in secrets.toml is incorrect. Please check your 16-digit App Password.") ;;
              ret (false, "Email credentials failed.")
            else
              emit (StError ("Email Send Error: " +:+ exn_text e)) ;;
              ret (false, "Email failed to send: " +:+ exn_text e))]
  end.

(** *** The widgets (lines 89-144) *)

(** What the widgets return in one run of the script. *)
Record inputs : Type := Inputs {
  uploaded_file : option string;
  recipient_email : string;
  business_context : string;
  alert_slider : Z;
  slump_checkbox : bool;
  slump_slider : Z;
  auto_send_checkbox : bool;
  analyze_button : bool;
  send_button : bool
}.

Definition alert_threshold (i : inputs) : Z := alert_slider i.
Definition warn_on_slump (i : inputs) : bool := slump_checkbox i.

(** Lines 123-131: the slump slider is read only when the box is ticked. *)
Definition slump_threshold (i : inputs) : Z :=
  if warn_on_slump i then slump_slider i else 25.

(** Lines 137-144: without a recipient there is no check box to tick. *)
Definition auto_send (i : inputs) : bool :=
  if String.eqb (recipient_email i) EmptyString then false
  else auto_send_checkbox i.

(** *** Prompt assembly (lines 172-212) *)

Definition slump_instructions (warn_on_slump : bool) (slump_threshold : Z) : string :=
  if warn_on_slump then
    "
                - **Task 3 (Slumps):** Check for sales >"
    +:+ str_of_int slump_threshold
    +:+ "% *below* the 7-day average. A " +:+ dq +:+ "Slump" +:+ dq +:+ " is >"
    +:+ str_of_int slump_threshold
    +:+ "% sales *lower* than the 7-day moving average.
                "
  else EmptyString.

Definition spinner_text (alert_threshold : Z) (warn_on_slump : bool) (slump_threshold : Z)
  : string :=
  if warn_on_slump then
    "AI is analyzing for spikes (>" +:+ str_of_int alert_threshold
    +:+ "%) and slumps (<" +:+ str_of_int slump_threshold +:+ "%)..."
  else
    "AI is analyzing for spikes > " +:+ str_of_int alert_threshold +:+ "%...".

Definition subject_text (alert_threshold : Z) (warn_on_slump : bool) : string :=
  if warn_on_slump then
    "SUBJECT: 📈📉 Sales Velocity Alert (Spikes & Slumps Detected)"
  else
    "SUBJECT: 🚨 URGENT: Demand Spike Warning (Threshold: "
    +:+ str_of_int alert_threshold +:+ "%)".

(** The prompt up to the data. *)
Definition prompt_head : string :=
  "
            You are a " +:+ dq +:+ "Sales Velocity Analyst" +:+ dq +:+ ".
            Analyze the following sales DATA and consider the business CONTEXT.
            Respond with *ONLY* a JSON list of all spikes and slumps, wrapped in ```json ... ``` tags.
            If no issues are found, respond with an empty list: [].

            DATA:
            ".

(** From the data to the business context. *)
Definition prompt_after_data : string :=
  "

            CURRENT BUSINESS CONTEXT:
            ".

(** From the business context to the spike threshold. *)
Definition prompt_after_context : string :=
  "

            YOUR TASKS:
            1.  **Analyze Data:** Segregate by 'sku'.
            2.  **Task 2 (Spikes):** Check for sales >".

(** From the spike threshold to the slump instructions. *)
Definition prompt_after_threshold : string :=
  "% *above* the 7-day average.
            ".

(** The prompt after the slump instructions. *)
Definition prompt_tail : string :=
  "

            JSON FORMAT FOR EACH ISSUE:
            {
                " +:+ dq +:+ "type" +:+ dq +:+ ": " +:+ dq +:+ "spike" +:+ dq +:+ " or " +:+ dq +:+ "slump" +:+ dq +:+ ",
                " +:+ dq +:+ "sku" +:+ dq +:+ ": " +:+ dq +:+ "The SKU name" +:+ dq +:+ ",
                " +:+ dq +:+ "location" +:+ dq +:+ ": " +:+ dq +:+ "The location" +:+ dq +:+ ",
                " +:+ dq +:+ "today_sales" +:+ dq +:+ ": " +:+ dq +:+ "The most recent sales number" +:+ dq +:+ ",
                " +:+ dq +:+ "avg_sales" +:+ dq +:+ ": " +:+ dq +:+ "The calculated 7-day average" +:+ dq +:+ ",
                " +:+ dq +:+ "change_pct" +:+ dq +:+ ": " +:+ dq +:+ "The % increase or decrease" +:+ dq +:+ ",
                " +:+ dq +:+ "cause" +:+ dq +:+ ": " +:+ dq +:+ "Your suggested cause, using business context if relevant." +:+ dq +:+ "
            }
            ".

(** The f-string of lines 185-212: its five literal segments around the
    four interpolations. *)
Definition prompt_template
    (data_as_text business_context alert_threshold slump_instructions : string) : string :=
  prompt_head
  +:+ data_as_text
  +:+ prompt_after_data
  +:+ business_context
  +:+ prompt_after_context
  +:+ alert_threshold
  +:+ prompt_after_threshold
  +:+ slump_instructions
  +:+ prompt_tail.

Definition prompt (data_as_text business_context : string)
    (alert_threshold : Z) (warn_on_slump : bool) (slump_threshold : Z) : string :=
  prompt_template data_as_text business_context (str_of_int alert_threshold)
    (slump_instructions warn_on_slump slump_threshold).

(** *** Reading the reply (line 221) *)

Definition json_text (response_text : string) : string :=
  replace "```" EmptyString (replace "```json" EmptyString (strip response_text)).

(** *** The report and the body of the e-mail (lines 224-260) *)

(** [f"{alert['key']}"] *)
Definition field (alert : json) (key : string) : M string :=
  v <- lift (Py.getitem alert key) ;;
  ret (Py.str (repr_str w) v).

Definition no_warnings : string :=
  "All SKUs are operating within normal sales velocity. No warnings to report.".

Definition greeting : string :=
  "Hi Team," +:+ nl +:+ nl +:+ "My analysis is complete. Here are the findings:" +:+ nl +:+ nl.

Definition signature : string :=
  nl +:+ nl +:+ "Best," +:+ nl +:+ "Sales Velocity Agent".

(** One turn of the loop of lines 230-257. *)
Definition render_alert (df : dataframe) (alert_threshold slump_threshold : Z)
    (alert : json) (email_body_text : string) : M string :=
  type <- lift (Py.getitem alert "type") ;;
  email_body_text <-
    (if Py.eq_str type "spike" then
       emit (Markdown "---") ;;
       emit (Markdown ("### ⚠️ SPIKE WARNING (>" +:+ str_of_int alert_threshold +:+ "%)")) ;;
       ret (email_body_text +:+ "--- " +:+ nl +:+ " ⚠️ SPIKE WARNING (>"
              +:+ str_of_int alert_threshold +:+ "%) " +:+ nl)
     else
       emit (Markdown "---") ;;
       emit (Markdown ("### 📉 SLUMP WARNING (>" +:+ str_of_int slump_threshold +:+ "%)")) ;;
       ret (email_body_text +:+ "--- " +:+ nl +:+ " 📉 SLUMP WARNING (>"
              +:+ str_of_int slump_threshold +:+ "%) " +:+ nl)) ;;
  sku <- field alert "sku" ;;
  emit (Markdown ("* **SKU:** `" +:+ sku +:+ "`")) ;;
  location <- field alert "location" ;;
  emit (Markdown ("* **Location:** `" +:+ location +:+ "`")) ;;
  today_sales <- field alert "today_sales" ;;
  emit (Markdown ("* **Today's Sales:** `" +:+ today_sales +:+ "`")) ;;
  avg_sales <- field alert "avg_sales" ;;
  emit (Markdown ("* **7-Day Average:** `" +:+ avg_sales +:+ "`")) ;;
  change_pct <- field alert "change_pct" ;;
  emit (Markdown ("* **Change:** `" +:+ change_pct +:+ "%`")) ;;
  cause <- field alert "cause" ;;
  emit (Markdown ("* **Suggested Cause:** " +:+ cause)) ;;
  sku <- field alert "sku" ;;
  emit (Markdown ("**Data for " +:+ sku +:+ ":**")) ;;
  key <- lift (Py.getitem alert "sku") ;;
  sku_data <- lift (rows_of_alert w df key) ;;
  check (line_chart w sku_data) ;;
  emit (LineChart sku_data) ;;
  sku <- field alert "sku" ;;
  let email_body_text := email_body_text +:+ "* SKU: " +:+ sku +:+ " " +:+ nl in
  location <- field alert "location" ;;
  let email_body_text := email_body_text +:+ "* Location: " +:+ location +:+ " " +:+ nl in
  today_sales <- field alert "today_sales" ;;
  let email_body_text :=
    email_body_text +:+ "* Today's Sales: " +:+ today_sales +:+ " " +:+ nl in
  avg_sales <- field alert "avg_sales" ;;
  let email_body_text :=
    email_body_text +:+ "* 7-Day Average: " +:+ avg_sales +:+ " " +:+ nl in
  change_pct <- field alert "change_pct" ;;
  let email_body_text := email_body_text +:+ "* Change: " +:+ change_pct +:+ "% " +:+ nl in
  cause <- field alert "cause" ;;
  ret (email_body_text +:+ "* Suggested Cause: " +:+ cause +:+ " " +:+ nl +:+ nl).

(** [for alert in alerts: ...], threading [email_body_text]. *)
Fixpoint render_alerts (df : dataframe) (alert_threshold slump_threshold : Z)
    (alerts : list json) (email_body_text : string) : M string :=
  match alerts with
  | [] => ret email_body_text
  | alert :: alerts' =>
      email_body_text <-
        render_alert df alert_threshold slump_threshold alert email_body_text ;;
      render_alerts df alert_threshold slump_threshold alerts' email_body_text
  end.

Definition build_report (df : dataframe) (alert_threshold slump_threshold : Z)
    (alerts : json) : M string :=
  let email_body_text := greeting in
  email_body_text <-
    (if negb (Py.truthy alerts) then
       emit (Markdown no_warnings) ;;
       ret (email_body_text +:+ no_warnings)
     else
       items <- lift (Py.iter alerts) ;;
       render_alerts df alert_threshold slump_threshold items email_body_text) ;;
  emit (Markdown "---") ;;
  ret (email_body_text +:+ signature).

(** *** Sending or offering to send (lines 263-289) *)

(** Lines 268-275, and again lines 282-289: the spinner text reads the
    sender from the secrets before [send_email] is called. *)
Definition send_with_spinner (secrets : gmap string string)
    (recipient_email subject_clean email_body_text : string) : M unit :=
  sender <- secret secrets "SENDER_EMAIL" ;;
  sent <- within (Spinner ("Sending email from " +:+ sender +:+ "..."))
            (send_email secrets recipient_email subject_clean email_body_text) ;;
  let (success, message) := sent : bool * string in
  if success then emit (StSuccess message) else ret tt.

Definition review_button : string := "Click Here to Send the Email Alert".

Definition send_or_review (secrets : gmap string string) (i : inputs)
    (subject_clean email_body_text : string) : M unit :=
  if auto_send i then
    emit (StInfo ("Autonomous mode enabled. Sending alert to `"
                  +:+ recipient_email i +:+ "`...")) ;;
    send_with_spinner secrets (recipient_email i) subject_clean email_body_text
  else
    emit (Markdown ("**Ready to send the report to:** `" +:+ recipient_email i +:+ "`")) ;;
    emit (Button review_button) ;;
    if send_button i then
      send_with_spinner secrets (recipient_email i) subject_clean email_body_text
    else ret tt.

(** *** From the reply to the report (lines 220-302) *)

Definition bad_json : string :=
  "Error: The AI's response was not in the correct JSON format. Here is the raw text:".

Definition process_response (secrets : gmap string string) (i : inputs)
    (df : dataframe) (prompt subject_text : string) (response : response) : M unit :=
  try_except
    (text <- lift response ;;
     alerts <- lift (json_loads w (json_text text)) ;;
     email_body_text <- build_report df (alert_threshold i) (slump_threshold i) alerts ;;
     let subject_clean := replace "SUBJECT: " EmptyString subject_text in
     send_or_review secrets i subject_clean email_body_text ;;
     emit (Markdown "---") ;;
     within (Expander "Click here to see the *exact* prompt sent to the AI (The 'Vibe Code')")
       (emit (StCode prompt "text")))
    [(is_JSONDecodeError, fun _ =>
        emit (StError bad_json) ;;
        text <- lift response ;;
        emit (StText text));
     (is_Exception, fun e =>
        emit (StError ("Error while processing alerts: " +:+ exn_text e)) ;;
        text <- lift response ;;
        emit (StText ("Raw AI response: " +:+ text)))].

(** *** One click on the analyse button (lines 172-305) *)

Definition analyze (secrets : gmap string string) (i : inputs)
    (df : dataframe) (data_as_text : string) : M unit :=
  let prompt :=
    prompt data_as_text (business_context i)
      (alert_threshold i) (warn_on_slump i) (slump_threshold i) in
  within (Spinner (spinner_text (alert_threshold i) (warn_on_slump i) (slump_threshold i)))
    (try_except
       (emit (GenerateContent prompt) ;;
        response <- lift (generate_content w prompt) ;;
        emit (StSuccess "Analysis Complete!") ;;
        emit (Markdown "### 🤖 AI-Generated Visual Report") ;;
        process_response secrets i df prompt
          (subject_text (alert_threshold i) (warn_on_slump i)) response)
       [(is_Exception, fun e =>
           emit (StError ("An error occurred during analysis: " +:+ exn_text e)))]).

(** *** The uploaded file (lines 148-308) *)

Definition preview_label : string := "Click to see Data Preview".
Definition charts_label : string := "Click to see All Sales Charts 📊".

(** The loop of lines 163-166. *)
Fixpoint sku_charts (df : dataframe) (skus : list scalar) : M unit :=
  match skus with
  | [] => ret tt
  | sku :: skus' =>
      emit (Subheader ("Sales Trend for: " +:+ scalar_str w sku)) ;;
      sku_data <- lift (rows_of_sku w df sku) ;;
      check (line_chart w sku_data) ;;
      emit (LineChart sku_data) ;;
      sku_charts df skus'
  end.

Definition on_upload (secrets : gmap string string) (i : inputs) : M unit :=
  match uploaded_file i with
  | None => ret tt
  | Some file =>
      try_except
        (df <- lift (read_csv w file) ;;
         df <- try_except (lift (to_datetime w df))
                 [(is_Exception, fun e =>
                     emit (StWarning ("Could not parse dates. Charts may be incorrect. Error: "
                                      +:+ exn_text e)) ;;
                     ret df)] ;;
         within (Expander preview_label) (emit (StDataframe df)) ;;
         within (Expander charts_label)
           (unique_skus <- lift (unique_skus w df) ;;
            sku_charts df unique_skus) ;;
         data_as_text <- lift (to_string w df) ;;
         emit (Button "Analyze Sales Velocity") ;;
         if analyze_button i then analyze secrets i df data_as_text else ret tt)
        [(is_Exception, fun e =>
            emit (StError ("Error reading CSV file: " +:+ exn_text e)))]
  end.

(** *** The form (lines 89-145) and the whole script *)

Definition form (secrets : gmap string string) (i : inputs) : M unit :=
  emit (FileUploader "1. Upload your sales CSV file") ;;
  emit (TextInput "2. Enter Recipient Email for Alert") ;;
  emit (TextInput "3. (Optional) Add any business context") ;;
  emit (Slider "4. Set the Spike Threshold (%) 📈") ;;
  emit (Checkbox "5. Also warn about sales *slumps* (sudden drops)?") ;;
  (if warn_on_slump i then emit (Slider "Slump Threshold (%) 📉") else ret tt) ;;
  emit (Markdown "---") ;;
  emit (Subheader "🚀 Take Action") ;;
  (if String.eqb (recipient_email i) EmptyString then
     emit (StWarning "Please enter a recipient email (Step 2) to enable alert actions.")
   else
     emit (Checkbox ("Send alert immediately to `" +:+ recipient_email i
                     +:+ "` without review"))) ;;
  emit (Markdown "---") ;;
  on_upload secrets i.

(** Lines 14-54, then the form.  [st.stop()] ends the run. *)
Definition script (i : inputs) : M unit :=
  emit (PageConfig "Autonomous Agent V5" "🤖") ;;
  emit (Title "🤖 Autonomous Sales Agent V5 (Demo Ready)") ;;
  emit (Caption "This AI agent can analyze sales and *autonomously* send email alerts.") ;;
  emit (Button "Reset Demo") ;;
  emit (Markdown "---") ;;
  match secrets_file w with
  | None =>
      emit (StError "CRITICAL ERROR: Could not find .streamlit/secrets.toml file.") ;;
      emit (StInfo "Please create this file and add your GEMINI_API_KEY.")
  | Some secrets =>
      match secrets !! "GEMINI_API_KEY" with
      | None =>
          emit (StError "CRITICAL ERROR: 'GEMINI_API_KEY' not found in secrets.toml.") ;;
          emit (StInfo "Please add your Gemini API key to the .streamlit/secrets.toml file.")
      | Some API_KEY =>
          match configure w API_KEY with
          | Some e => emit (StError ("Error configuring API: " +:+ exn_text e))
          | None => form secrets i
          end
      end
  end.

End App.

(** ** Notions used in the statements *)

(** The text by which [send_email] recognises rejected credentials (line 81). *)
Definition credential_rejection : string := "Username and Password not accepted".

(** What [send_email] answers when its second [try] ends with [e]
    (lines 80-85). *)
Definition failure_answer (e : exn) : bool * string :=
  if contains credential_rejection (exn_text e)
  then (false, "Email credentials failed.")
  else (false, "Email failed to send: " +:+ exn_text e).

(** The seven values of an alert, as the prompt asks for them. *)
Record alert_fields : Type := Fields {
  a_type : json;
  a_sku : json;
  a_location : json;
  a_today_sales : json;
  a_avg_sales : json;
  a_change_pct : json;
  a_cause : json
  }.

(** [alert] answers the seven keys with the values of [f]. *)
Definition has_fields (alert : json) (f : alert_fields) : Prop :=
  Py.getitem alert "type" = Ok (a_type f)
  ∧ Py.getitem alert "sku" = Ok (a_sku f)
  ∧ Py.getitem alert "location" = Ok (a_location f)
  ∧ Py.getitem alert "today_sales" = Ok (a_today_sales f)
  ∧ Py.getitem alert "avg_sales" = Ok (a_avg_sales f)
  ∧ Py.getitem alert "change_pct" = Ok (a_change_pct f)
  ∧ Py.getitem alert "cause" = Ok (a_cause f).

Section Cards.

Context {dataframe scalar : Type}.
Variable w : world dataframe scalar.
Variables alert_threshold slump_threshold : Z.

Definition spike_heading : string :=
  "### ⚠️ SPIKE WARNING (>" +:+ str_of_int alert_threshold +:+ "%)".
Definition slump_heading : string :=
  "### 📉 SLUMP WARNING (>" +:+ str_of_int slump_threshold +:+ "%)".
Definition spike_line : string :=
  "--- " +:+ nl +:+ " ⚠️ SPIKE WARNING (>" +:+ str_of_int alert_threshold +:+ "%) " +:+ nl.
Definition slump_line : string :=
  "--- " +:+ nl +:+ " 📉 SLUMP WARNING (>" +:+ str_of_int slump_threshold +:+ "%) " +:+ nl.

Definition show (v : json) : string := Py.str (repr_str w) v.

(** The card of an alert: a rule, the heading, the six values and the
    chart of the SKU. *)
Definition card (f : alert_fields) (sku_data : dataframe) : list (event dataframe) :=
  [Markdown "---";
   Markdown (if Py.eq_str (a_type f) "spike" then spike_heading else slump_heading);
   Markdown ("* **SKU:** `" +:+ show (a_sku f) +:+ "`");
   Markdown ("* **Location:** `" +:+ show (a_location f) +:+ "`");
   Markdown ("* **Today's Sales:** `" +:+ show (a_today_sales f) +:+ "`");
   Markdown ("* **7-Day Average:** `" +:+ show (a_avg_sales f) +:+ "`");
   Markdown ("* **Change:** `" +:+ show (a_change_pct f) +:+ "%`");
   Markdown ("* **Suggested Cause:** " +:+ show (a_cause f));
   Markdown ("**Data for " +:+ show (a_sku f) +:+ ":**");
   LineChart sku_data].

(** The six lines of an alert in the e-mail, after its heading line. *)
Definition email_values (f : alert_fields) : string :=
  "* SKU: " +:+ show (a_sku f) +:+ " " +:+ nl
  +:+ "* Location: " +:+ show (a_location f) +:+ " " +:+ nl
  +:+ "* Today's Sales: " +:+ show (a_today_sales f) +:+ " " +:+ nl
  +:+ "* 7-Day Average: " +:+ show (a_avg_sales f) +:+ " " +:+ nl
  +:+ "* Change: " +:+ show (a_change_pct f) +:+ "% " +:+ nl
  +:+ "* Suggested Cause: " +:+ show (a_cause f) +:+ " " +:+ nl +:+ nl.

Definition email_block (f : alert_fields) : string :=
  (if Py.eq_str (a_type f) "spike" then spike_line else slump_line) +:+ email_values f.

(** The alert has the seven values of [f] and the chart of its SKU,
    [sku_data], can be drawn. *)
Definition renders_as (df : dataframe) (alert : json)
    (shown : alert_fields * dataframe) : Prop :=
  has_fields alert (fst shown)
  ∧ rows_of_alert w df (a_sku (fst shown)) = Ok (snd shown)
  ∧ line_chart w (snd shown) = None.

Definition cards (shown : list (alert_fields * dataframe)) : list (event dataframe) :=
  flat_map (fun x => card (fst x) (snd x)) shown.

Fixpoint email_blocks (shown : list (alert_fields * dataframe)) : string :=
  match shown with
  | [] => EmptyString
  | x :: shown' => email_block (fst x) +:+ email_blocks shown'
  end.

End Cards.

Section Preview.

Context {dataframe scalar : Type}.
Variable w : world dataframe scalar.

(** The dataframe after line 154: with its dates converted when pandas
    can, as it was read when it cannot. *)
Definition dated (df : dataframe) : dataframe :=
  match to_datetime w df with
  | Ok df' => df'
  | Raise _ => df
  end.

(** The warning of line 156, when the dates cannot be converted. *)
Definition date_warning (df : dataframe) : list (event dataframe) :=
  match to_datetime w df with
  | Ok _ => []
  | Raise e =>
      [StWarning ("Could not parse dates. Charts may be incorrect. Error: " +:+ exn_text e)]
  end.

(** The preview of lines 158-159. *)
Definition preview (df : dataframe) : list (event dataframe) :=
  [Enter (Expander "Click to see Data Preview");
   StDataframe df;
   Leave (Expander "Click to see Data Preview")].

(** The chart of one SKU, lines 164-166. *)
Definition sku_chart (chart : scalar * dataframe) : list (event dataframe) :=
  [Subheader ("Sales Trend for: " +:+ scalar_str w (fst chart)); LineChart (snd chart)].

(** The rows of [sku] are [sku_data] and can be charted. *)
Definition charts_as (df : dataframe) (sku : scalar) (chart : scalar * dataframe) : Prop :=
  fst chart = sku
  ∧ rows_of_sku w df sku = Ok (snd chart)
  ∧ line_chart w (snd chart) = None.

End Preview.

(** The spike task of the prompt, with its threshold. *)
Definition spike_task (alert_threshold : Z) : string :=
  "**Task 2 (Spikes):** Check for sales >" +:+ str_of_int alert_threshold
  +:+ "% *above* the 7-day average.".

(** The slump task of the prompt, with its threshold. *)
Definition slump_task (slump_threshold : Z) : string :=
  "- **Task 3 (Slumps):** Check for sales >" +:+ str_of_int slump_threshold
  +:+ "% *below* the 7-day average. A " +:+ dq +:+ "Slump" +:+ dq +:+ " is >"
  +:+ str_of_int slump_threshold +:+ "% sales *lower* than the 7-day moving average.".

(** [c in s] for a character [c]. *)
Fixpoint occurs (c : ascii) (s : string) : bool :=
  match s with
| EmptyString => false
| String x s' => Ascii.eqb c x || occurs c s'
  end.

(** [b] starts with a character that [m] does not hold. *)
Definition barrier (m b : string) : bool :=
  match b with
| EmptyString => false
| String c _ => negb (occurs c m)
  end.

Section Page.

Context {dataframe : Type}.

(** What every run shows first (lines 14-33). *)
Definition page_header : list (event dataframe) :=
  [PageConfig "Autonomous Agent V5" "🤖";
   Title "🤖 Autonomous Sales Agent V5 (Demo Ready)";
   Caption "This AI agent can analyze sales and *autonomously* send email alerts.";
   Button "Reset Demo";
   Markdown "---"].

(** The widgets of the form (lines 89-145). *)
Definition form_widgets (i : inputs) : list (event dataframe) :=
  [FileUploader "1. Upload your sales CSV file";
   TextInput "2. Enter Recipient Email for Alert";
   TextInput "3. (Optional) Add any business context";
   Slider "4. Set the Spike Threshold (%) 📈";
   Checkbox "5. Also warn about sales *slumps* (sudden drops)?"]
  ++ (if warn_on_slump i then [Slider "Slump Threshold (%) 📉"] else [])
  ++ [Markdown "---"; Subheader "🚀 Take Action"]
  ++ [if String.eqb (recipient_email i) EmptyString
      then StWarning "Please enter a recipient email (Step 2) to enable alert actions."
      else Checkbox ("Send alert immediately to `" +:+ recipient_email i
                     +:+ "` without review")]
  ++ [Markdown "---"].

End Page.

(** Texts made of Python whitespace only. *)
Inductive whitespace : string → Prop :=
| whitespace_nil : whitespace EmptyString
| whitespace_1 a s : space1 a = true → whitespace s → whitespace (String a s)
| whitespace_2 a b s :
    space2 a b = true → whitespace s → whitespace (String a (String b s))
| whitespace_3 a b c s :
    space3 a b c = true → whitespace s → whitespace (String a (String b (String c s))).

(** A reply that wraps [s] in a fence, as the prompt asks. *)
Definition fenced (s : string) : string := "```json" +:+ s +:+ "```".

Section Observations.

Context {dataframe : Type}.

(** The events of sending an e-mail: entering [send_email] and every step
    of the SMTP session. *)
Definition is_email_event (ev : event dataframe) : bool :=
  match ev with
  | CallSendEmail _ _ _ | SmtpConnect _ _ | SmtpStartTLS | SmtpLogin _ _
  | SmtpSendMessage _ | SmtpQuit => true
  | _ => false
  end.

(** The calls of [send_email] in a run, with their arguments. *)
Definition send_email_calls (t : list (event dataframe)) : list (string * string * string) :=
  flat_map (λ ev, match ev with
                  | CallSendEmail recipient subject body => [(recipient, subject, body)]
                  | _ => []
                  end) t.

(** The prompts sent to the model in a run. *)
Definition model_calls (t : list (event dataframe)) : list string :=
  flat_map (λ ev, match ev with
                  | GenerateContent prompt => [prompt]
                  | _ => []
                  end) t.

(** The buttons a run shows. *)
Definition buttons (t : list (event dataframe)) : list string :=
  flat_map (λ ev, match ev with
                  | Button label => [label]
                  | _ => []
                  end) t.

(** The e-mail events of a run. *)
Definition email_events (t : list (event dataframe)) : list (event dataframe) :=
  List.filter is_email_event t.

(** Events that are neither a call of [send_email], nor a button, nor a
    call of the model. *)
Definition is_side_event (ev : event dataframe) : bool :=
  match ev with
  | CallSendEmail _ _ _ | Button _ | GenerateContent _ => false
  | _ => true
  end.

(** What a report is made of: markdown and charts. *)
Definition is_report_event (ev : event dataframe) : bool :=
  match ev with
  | Markdown _ | LineChart _ => true
  | _ => false
  end.

(** Every event of [m] satisfies [P]. *)
Definition only {A} (P : event dataframe → Prop) (m : M dataframe A) : Prop :=
  Forall P (events m).

(** What the two [except] clauses of lines 297-302 show for the exception
    [e], [text] being the text of the reply. *)
Definition handled (text : string) (e : exn) : list (event dataframe) :=
  if is_JSONDecodeError e then
    [StError bad_json; StText text]
  else
    [StError ("Error while processing alerts: " +:+ exn_text e);
     StText ("Raw AI response: " +:+ text)].

(** The prompt revealed at the end of a report (lines 292-294). *)
Definition prompt_reveal (prompt : string) : list (event dataframe) :=
  [Markdown "---";
   Enter (Expander "Click here to see the *exact* prompt sent to the AI (The 'Vibe Code')");
   StCode prompt "text";
   Leave (Expander "Click here to see the *exact* prompt sent to the AI (The 'Vibe Code')")].

End Observations.

(** ** Concrete runs *)

Module Demo.

(** A secrets file with the three keys the script reads. *)
Definition secrets : gmap string string :=
  <["GEMINI_API_KEY" := "gemini-key"]>
    (<["SENDER_EMAIL" := "agent@example.com"]>
       (<["SENDER_PASSWORD" := "abcdabcdabcdabcd"]> ∅)).

Definition csv : string :=
  "date,sku,sales,location" +:+ nl +:+ "2024-05-01,LATTE,40,Pune" +:+ nl.

(** A world in which pandas keeps the CSV text as the dataframe and charts
    never fail; the secrets, the model's reply, the JSON parser and the
    answer of the SMTP server to the login are left open. *)
Definition world_with (secrets : option (gmap string string))
    (reply : result response) (parse : string -> result json)
    (login : option exn) : world string string :=
  {| secrets_file := secrets;
     missing_secret := fun key => "st.secrets has no key " +:+ Py.quoted key;
     configure := fun _ => None;
     read_csv := fun file => Ok file;
     to_datetime := fun df => Ok df;
     unique_skus := fun _ => Ok ["LATTE"];
     scalar_str := fun sku => sku;
     rows_of_sku := fun df _ => Ok df;
     rows_of_alert := fun df _ => Ok df;
     line_chart := fun _ => None;
     to_string := fun df => Ok df;
     generate_content := fun _ => reply;
     json_loads := parse;
     repr_str := Py.quoted;
     compose := fun _ => None;
     smtp_connect := fun _ _ => None;
     smtp_starttls := None;
     smtp_login := fun _ _ => login;
     smtp_send := fun _ => None;
     smtp_quit := None |}.

Definition not_json : exn :=
  Exn JSONDecodeError "Expecting value: line 1 column 1 (char 0)".

(** A parser that knows the texts of a table and rejects every other. *)
Fixpoint parse_table (table : list (string * json)) (s : string) : result json :=
  match table with
  | [] => Raise not_json
  | (text, v) :: table' => if String.eqb text s then Ok v else parse_table table' s
  end.

(** The server's reply to a wrong application password, and to a plain
    password where an application password is required. *)
Definition bad_credentials : exn :=
  Exn (OtherException "SMTPAuthenticationError")
    "(535, b'5.7.8 Username and Password not accepted.')".
Definition app_password_required : exn :=
  Exn (OtherException "SMTPAuthenticationError")
    "(534, b'5.7.9 Application-specific password required.')".

Definition form_state : gmap string widget_value :=
  <["recipient_email" := VStr "ops@example.com"]>
    (<["alert_slider" := VInt 40]>
       (<["file_uploader" := VFile csv]> ∅)).

(** The form: a file, a recipient, a context, both thresholds at 25. *)
Definition form (context : string) (slump auto_send analyze send : bool) : inputs :=
  {| uploaded_file := Some csv;
     recipient_email := "ops@example.com";
     business_context := context;
     alert_slider := 25;
     slump_checkbox := slump;
     slump_slider := 25;
     auto_send_checkbox := auto_send;
     analyze_button := analyze;
     send_button := send |}.

(** Alerts as the model may write them. *)
Definition quote (s : string) : string := dq +:+ s +:+ dq.

Definition latte_text : string :=
  "{" +:+ quote "type" +:+ ": " +:+ quote "spike" +:+ ", "
  +:+ quote "sku" +:+ ": " +:+ quote "LATTE" +:+ ", "
  +:+ quote "location" +:+ ": " +:+ quote "Pune" +:+ ", "
  +:+ quote "today_sales" +:+ ": 90, "
  +:+ quote "avg_sales" +:+ ": 40.0, "
  +:+ quote "change_pct" +:+ ": 125, "
  +:+ quote "cause" +:+ ": " +:+ quote "Festive offer on cold drinks" +:+ "}".

Definition latte : json :=
  JObj [("type", JStr "spike"); ("sku", JStr "LATTE"); ("location", JStr "Pune");
        ("today_sales", JInt 90); ("avg_sales", JFloat "40.0"); ("change_pct", JInt 125);
        ("cause", JStr "Festive offer on cold drinks")].

Definition latte_fields : alert_fields :=
  Fields (JStr "spike") (JStr "LATTE") (JStr "Pune") (JInt 90) (JFloat "40.0") (JInt 125)
    (JStr "Festive offer on cold drinks").

(** An alert of a type the prompt does not name. *)
Definition surge : json :=
  JObj [("type", JStr "surge"); ("sku", JStr "MOCHA"); ("location", JStr "Goa");
        ("today_sales", JInt 70); ("avg_sales", JInt 35); ("change_pct", JInt 100);
        ("cause", JStr "Unknown")].

(** An alert cut after its type, and one with no cause. *)
Definition cut_text : string := "{" +:+ quote "type" +:+ ": " +:+ quote "spike" +:+ "}".
Definition cut : json := JObj [("type", JStr "spike")].

Definition no_cause_text : string :=
  "{" +:+ quote "type" +:+ ": " +:+ quote "spike" +:+ ", "
  +:+ quote "sku" +:+ ": " +:+ quote "LATTE" +:+ ", "
  +:+ quote "location" +:+ ": " +:+ quote "Pune" +:+ ", "
  +:+ quote "today_sales" +:+ ": 90, "
  +:+ quote "avg_sales" +:+ ": 40.0, "
  +:+ quote "change_pct" +:+ ": 125}".

Definition no_cause : json :=
  JObj [("type", JStr "spike"); ("sku", JStr "LATTE"); ("location", JStr "Pune");
        ("today_sales", JInt 90); ("avg_sales", JFloat "40.0"); ("change_pct", JInt 125)].

(** What [json.loads] gives for the texts above; it skips the whitespace
    around a document. *)
Definition parse (s : string) : result json :=
  parse_table
    [("[]", JArr []);
     ("[" +:+ latte_text +:+ "]", JArr [latte]);
     ("[" +:+ cut_text +:+ ", " +:+ latte_text +:+ "]", JArr [cut; latte]);
     ("[" +:+ no_cause_text +:+ "]", JArr [no_cause])]
    (strip s).

(** A reply in the form the prompt asks for. *)
Definition reply (document : string) : string :=
  fenced (nl +:+ document +:+ nl) +:+ nl.

(** The model answers [text]; the SMTP server answers [login] to the login. *)
Definition world_of (text : string) (login : option exn) : world string string :=
  world_with (Some secrets) (Ok (Ok text)) parse login.

(** The same world with another answer of [read_csv]. *)
Definition with_read_csv (w : world string string)
    (answer : string → result string) : world string string :=
  {| secrets_file := secrets_file w;
     missing_secret := missing_secret w;
     configure := configure w;
     read_csv := answer;
     to_datetime := to_datetime w;
     unique_skus := unique_skus w;
     scalar_str := scalar_str w;
     rows_of_sku := rows_of_sku w;
     rows_of_alert := rows_of_alert w;
     line_chart := line_chart w;
     to_string := to_string w;
     generate_content := generate_content w;
     json_loads := json_loads w;
     repr_str := repr_str w;
     compose := compose w;
     smtp_connect := smtp_connect w;
     smtp_starttls := smtp_starttls w;
     smtp_login := smtp_login w;
     smtp_send := smtp_send w;
     smtp_quit := smtp_quit w |}.

Definition parser_error : exn :=
  Exn (OtherException "ParserError") "Error tokenizing data. C error: Expected 4 fields in line 3, saw 5".

(** The same world with another answer of [df['sku'].unique()]. *)
Definition with_unique_skus (w : world string string)
    (answer : string → result (list string)) : world string string :=
  {| secrets_file := secrets_file w;
     missing_secret := missing_secret w;
     configure := configure w;
     read_csv := read_csv w;
     to_datetime := to_datetime w;
     unique_skus := answer;
     scalar_str := scalar_str w;
     rows_of_sku := rows_of_sku w;
     rows_of_alert := rows_of_alert w;
     line_chart := line_chart w;
     to_string := to_string w;
     generate_content := generate_content w;
     json_loads := json_loads w;
     repr_str := repr_str w;
     compose := compose w;
     smtp_connect := smtp_connect w;
     smtp_starttls := smtp_starttls w;
     smtp_login := smtp_login w;
     smtp_send := smtp_send w;
     smtp_quit := smtp_quit w |}.

(** A CSV file with no [sku] column, and what [df['sku']] raises on it. *)
Definition csv_by_item : string :=
  "date,item,sales,location" +:+ nl +:+ "2024-05-01,LATTE,40,Pune" +:+ nl.

Definition no_sku_column : exn := Exn KeyError "'sku'".

Definition skus_of (df : string) : result (list string) :=
  if contains ",sku," df then Ok ["LATTE"] else Raise no_sku_column.

(** The form with that file uploaded and the analyse button clicked. *)
Definition form_by_item : inputs :=
  {| uploaded_file := Some csv_by_item;
     recipient_email := "ops@example.com";
     business_context := EmptyString;
     alert_slider := 25;
     slump_checkbox := false;
     slump_slider := 25;
     auto_send_checkbox := false;
     analyze_button := true;
     send_button := false |}.

Definition surge_fields : alert_fields :=
  Fields (JStr "surge") (JStr "MOCHA") (JStr "Goa") (JInt 70) (JInt 35) (JInt 100)
    (JStr "Unknown").

(** The e-mails of the runs below. *)
Definition no_warnings_email : string :=
  "Hi Team," +:+ nl +:+ nl
  +:+ "My analysis is complete. Here are the findings:" +:+ nl +:+ nl
  +:+ "All SKUs are operating within normal sales velocity. No warnings to report."
  +:+ nl +:+ nl +:+ "Best," +:+ nl +:+ "Sales Velocity Agent".

Definition latte_email : string :=
  "Hi Team," +:+ nl +:+ nl
  +:+ "My analysis is complete. Here are the findings:" +:+ nl +:+ nl
  +:+ "--- " +:+ nl
  +:+ " ⚠️ SPIKE WARNING (>25%) " +:+ nl
  +:+ "* SKU: LATTE " +:+ nl
  +:+ "* Location: Pune " +:+ nl
  +:+ "* Today's Sales: 90 " +:+ nl
  +:+ "* 7-Day Average: 40.0 " +:+ nl
  +:+ "* Change: 125% " +:+ nl
  +:+ "* Suggested Cause: Festive offer on cold drinks " +:+ nl +:+ nl
  +:+ nl +:+ nl +:+ "Best," +:+ nl +:+ "Sales Velocity Agent".

Definition surge_lines : string :=
  "--- " +:+ nl
  +:+ " 📉 SLUMP WARNING (>25%) " +:+ nl
  +:+ "* SKU: MOCHA " +:+ nl
  +:+ "* Location: Goa " +:+ nl
  +:+ "* Today's Sales: 70 " +:+ nl
  +:+ "* 7-Day Average: 35 " +:+ nl
  +:+ "* Change: 100% " +:+ nl
  +:+ "* Suggested Cause: Unknown " +:+ nl +:+ nl.

(** The slump task typed into the business context. *)
Definition injected_context : string := slump_task 25.

End Demo.

(** ** Properties *)

(** Unfolds the plumbing of the monad. *)
Ltac run :=
  unfold events, outcome, bind, try_except, within, ret, raise, emit, check, lift; cbn.

(** *** [clear_form] *)

(** C10: [clear_form] gives five of the form keys their initial values,
    resets [auto_send_checkbox] to [False] when the key is there and does not
    create it when it is not, and leaves every other key of the session
    state, the uploaded file among them, as it was. *)
Theorem clear_form_frame (session_state : gmap string widget_value) :
  let after := clear_form session_state in
  after !! "recipient_email" = Some (VStr EmptyString)
  ∧ after !! "business_context" = Some (VStr EmptyString)
  ∧ after !! "alert_slider" = Some (VInt 25)
  ∧ after !! "slump_slider" = Some (VInt 25)
  ∧ after !! "slump_checkbox" = Some (VBool false)
  ∧ (is_Some (session_state !! "auto_send_checkbox") →
     after !! "auto_send_checkbox" = Some (VBool false))
  ∧ (session_state !! "auto_send_checkbox" = None →
     after !! "auto_send_checkbox" = None)
  ∧ (∀ key : string,
       key ∉ ["recipient_email"; "business_context"; "alert_slider";
              "slump_checkbox"; "slump_slider"; "auto_send_checkbox"] →
       after !! key = session_state !! key).
Proof.
  intros after. subst after. unfold clear_form.
  assert (Hauto :
    <["slump_slider" := VInt 25]>
      (<["slump_checkbox" := VBool false]>
         (<["alert_slider" := VInt 25]>
            (<["business_context" := VStr EmptyString]>
               (<["recipient_email" := VStr EmptyString]> session_state))))
      !! "auto_send_checkbox"
    = session_state !! "auto_send_checkbox").
  { by rewrite !lookup_insert_ne. }
  case_decide as Hin; rewrite Hauto in Hin.
  - repeat split.
    1-5: by simplify_map_eq.
    + intros _. by simplify_map_eq.
    + intros Hnone. rewrite Hnone in Hin. by destruct Hin.
    + intros key Hkey. repeat (rewrite not_elem_of_cons in Hkey; destruct Hkey as [? Hkey]).
      by rewrite !lookup_insert_ne.
  - repeat split.
    1-5: by simplify_map_eq.
    + intros Hsome. by destruct Hin.
    + intros Hnone. by rewrite Hauto.
    + intros key Hkey. repeat (rewrite not_elem_of_cons in Hkey; destruct Hkey as [? Hkey]).
      by rewrite !lookup_insert_ne.
Qed.

(** C10, on a session that holds a file, a recipient and a moved slider and
    has never shown the auto-send box. *)
Lemma clear_form_frame_demo :
  clear_form Demo.form_state !! "file_uploader" = Some (VFile Demo.csv)
  ∧ clear_form Demo.form_state !! "alert_slider" = Some (VInt 25)
  ∧ clear_form Demo.form_state !! "auto_send_checkbox" = None.
Proof.
  destruct (clear_form_frame Demo.form_state) as (_ & _ & Hslider & _ & _ & _ & Hauto & Hframe).
  split; [| split].
  - rewrite Hframe; [reflexivity |].
    repeat (apply not_elem_of_cons; split; [discriminate |]). apply not_elem_of_nil.
  - exact Hslider.
  - apply Hauto. reflexivity.
Defined.

(** *** [send_email] *)

Section SendEmail.

Context {dataframe scalar : Type}.
Variable w : world dataframe scalar.
Variable secrets : gmap string string.
Variables recipient_email subject body : string.

Lemma send_email_no_credentials :
  secrets !! "SENDER_EMAIL" = None ∨ secrets !! "SENDER_PASSWORD" = None →
  send_email w secrets recipient_email subject body
  = ([CallSendEmail recipient_email subject body;
      StError "Email Send Error: 'SENDER_EMAIL' or 'SENDER_PASSWORD' not found in secrets.";
      StInfo "Please add your dummy email credentials to the .streamlit/secrets.toml file."],
     Ok (false, "Email credentials not configured in secrets.")).
Proof.
  intros Hmissing. unfold send_email, secret.
  destruct (secrets !! "SENDER_EMAIL") as [sender|] eqn:Hsender.
  - destruct Hmissing as [Hmissing | Hmissing]; [discriminate |].
    rewrite Hmissing. reflexivity.
  - reflexivity.
Qed.

Lemma send_email_with_credentials (sender password : string) :
  secrets !! "SENDER_EMAIL" = Some sender →
  secrets !! "SENDER_PASSWORD" = Some password →
  send_email w secrets recipient_email subject body
  = match deliver w sender password recipient_email subject body with
    | (t, Ok answer) => (CallSendEmail recipient_email subject body :: t, Ok answer)
    | (t, Raise e) =>
        (CallSendEmail recipient_email subject body :: t ++
           [StError (if contains credential_rejection (exn_text e)
                     then "Email Send Error: Your SENDER_EMAIL or SENDER_PASSWORD in secrets.toml is incorrect. Please check your 16-digit App Password."
                     else "Email Send Error: " +:+ exn_text e)],
         Ok (failure_answer e))
    end.
Proof.
  intros Hsender Hpassword. unfold send_email, secret, failure_answer, credential_rejection.
  rewrite Hsender, Hpassword. run.
  destruct (deliver w sender password recipient_email subject body) as [t [answer | e]].
  - reflexivity.
  - by destruct (contains _ (exn_text e)).
Qed.

(** The events and the outcome of the second [try], step by step. *)
Lemma deliver_cases (sender password : string) :
  let msg := Email body subject sender recipient_email in
  deliver w sender password recipient_email subject body
  = match compose w msg with
    | Some e => ([], Raise e)
    | None =>
        match smtp_connect w "smtp.gmail.com" 587 with
        | Some e => ([SmtpConnect "smtp.gmail.com" 587], Raise e)
        | None =>
            let closing (t : list (event dataframe)) (r : result (bool * string)) :=
              (SmtpConnect "smtp.gmail.com" 587 :: t ++ [SmtpQuit],
               match smtp_quit w with
               | Some e => Raise e
               | None => r
               end) in
            match smtp_starttls w with
            | Some e => closing [SmtpStartTLS] (Raise e)
            | None =>
                match smtp_login w sender password with
                | Some e => closing [SmtpStartTLS; SmtpLogin sender password] (Raise e)
                | None =>
                    match smtp_send w msg with
                    | Some e =>
                        closing [SmtpStartTLS; SmtpLogin sender password;
                                 SmtpSendMessage msg] (Raise e)
                    | None =>
                        closing [SmtpStartTLS; SmtpLogin sender password;
                                 SmtpSendMessage msg]
                          (Ok (true, "Email sent successfully!"))
                    end
                end
            end
        end
    end.
Proof.
  intros msg. unfold deliver, with_smtp. fold msg.
  destruct (compose w msg); [reflexivity |].
  destruct (smtp_connect w "smtp.gmail.com" 587); [reflexivity |].
  destruct (smtp_starttls w); [run; by destruct (smtp_quit w) |].
  destruct (smtp_login w sender password); [run; by destruct (smtp_quit w) |].
  destruct (smtp_send w msg); run; by destruct (smtp_quit w).
Qed.

End SendEmail.

Section SendEmailClaims.

Context {dataframe scalar : Type}.
Variable w : world dataframe scalar.

Lemma failure_answer_false (e : exn) : fst (failure_answer e) = false.
Proof. unfold failure_answer. by destruct (contains _ _). Qed.

(** C6, as the code has it: [send_email] never raises; when a secret is
    missing it answers [(False, "Email credentials not configured in
      secrets.")], shows the error and calls no SMTP server; when the SMTP
    part ends with an exception it shows an error and answers [False] with
    "Email credentials failed." if the text of the exception contains
    "Username and Password not accepted", and with "Email failed to send: "
    and the text otherwise; in particular a login rejected with that text
    answers "Email credentials failed.". *)
Theorem send_email_surfaces_failures
    (secrets : gmap string string) (recipient_email subject body : string) :
  let call := send_email w secrets recipient_email subject body in
  (∃ answer, outcome call = Ok answer)
  ∧ (secrets !! "SENDER_EMAIL" = None ∨ secrets !! "SENDER_PASSWORD" = None →
     outcome call = Ok (false, "Email credentials not configured in secrets.")
     ∧ (∃ text, StError text ∈ events call)
     ∧ ∀ host port, SmtpConnect host port ∉ events call)
  ∧ (∀ sender password e,
       secrets !! "SENDER_EMAIL" = Some sender →
       secrets !! "SENDER_PASSWORD" = Some password →
       outcome (deliver w sender password recipient_email subject body) = Raise e →
       outcome call = Ok (failure_answer e)
       ∧ ∃ text, StError text ∈ events call)
  ∧ (∀ sender password e,
       secrets !! "SENDER_EMAIL" = Some sender →
       secrets !! "SENDER_PASSWORD" = Some password →
       compose w (Email body subject sender recipient_email) = None →
       smtp_connect w "smtp.gmail.com" 587 = None →
       smtp_starttls w = None →
       smtp_login w sender password = Some e →
       smtp_quit w = None →
       contains credential_rejection (exn_text e) = true →
       outcome call = Ok (false, "Email credentials failed.")).
Proof.
  intros call. subst call.
  assert (Hraise : ∀ sender password e,
    secrets !! "SENDER_EMAIL" = Some sender →
    secrets !! "SENDER_PASSWORD" = Some password →
    outcome (deliver w sender password recipient_email subject body) = Raise e →
    outcome (send_email w secrets recipient_email subject body) = Ok (failure_answer e)
    ∧ ∃ text, StError text ∈ events (send_email w secrets recipient_email subject body)).
  { intros sender password e Hsender Hpassword Hraise.
    rewrite (send_email_with_credentials w secrets _ _ _ sender password Hsender Hpassword).
    destruct (deliver w sender password recipient_email subject body) as [t [answer | e']];
      [discriminate |].
    injection Hraise as ->. split; [reflexivity |].
    eexists. unfold events; cbn. apply elem_of_cons; right.
    apply elem_of_app; right. apply list_elem_of_singleton. reflexivity. }
  split; [| split; [| split]].
  - destruct (secrets !! "SENDER_EMAIL") as [sender|] eqn:Hsender;
      [destruct (secrets !! "SENDER_PASSWORD") as [password|] eqn:Hpassword |].
    + rewrite (send_email_with_credentials w secrets _ _ _ sender password Hsender Hpassword).
      destruct (deliver w sender password recipient_email subject body) as [t [answer | e]];
        eexists; reflexivity.
    + rewrite send_email_no_credentials; [| by right]. eexists; reflexivity.
    + rewrite send_email_no_credentials; [| by left]. eexists; reflexivity.
  - intros Hmissing. rewrite send_email_no_credentials; [| done].
    split; [reflexivity | split].
    + eexists. unfold events; cbn. apply elem_of_cons; right. apply elem_of_cons; by left.
    + intros host port Hin. unfold events in Hin; cbn in Hin.
      repeat (apply elem_of_cons in Hin; destruct Hin as [Hin | Hin]; [discriminate |]).
      by apply not_elem_of_nil in Hin.
  - exact Hraise.
  - intros sender password e Hsender Hpassword Hcompose Hconnect Htls Hlogin Hquit Htext.
    destruct (Hraise sender password e Hsender Hpassword) as [Hanswer _].
    { rewrite deliver_cases. cbn zeta. rewrite Hcompose, Hconnect, Htls, Hlogin, Hquit.
      reflexivity. }
    rewrite Hanswer. unfold failure_answer. by rewrite Htext.
Qed.

(** C7: a call of [send_email] that answers [True] read both credentials
    from the secrets, opened one connection to smtp.gmail.com on port 587,
    sent STARTTLS, logged in with the two secrets and sent one message,
    whose content is the body, whose subject is the subject, whose sender is
    the secret and whose [To] is the recipient given; every step was
    accepted and the answer is [(True, "Email sent successfully!")]. *)
Theorem send_email_success
    (secrets : gmap string string) (recipient_email subject body message : string) :
  outcome (send_email w secrets recipient_email subject body) = Ok (true, message) →
  ∃ sender password,
    secrets !! "SENDER_EMAIL" = Some sender
    ∧ secrets !! "SENDER_PASSWORD" = Some password
    ∧ message = "Email sent successfully!"
    ∧ events (send_email w secrets recipient_email subject body)
      = [CallSendEmail recipient_email subject body;
         SmtpConnect "smtp.gmail.com" 587;
         SmtpStartTLS;
         SmtpLogin sender password;
         SmtpSendMessage (Email body subject sender recipient_email);
         SmtpQuit]
    ∧ smtp_connect w "smtp.gmail.com" 587 = None
    ∧ smtp_starttls w = None
    ∧ smtp_login w sender password = None
    ∧ smtp_send w (Email body subject sender recipient_email) = None
    ∧ smtp_quit w = None.
Proof.
  intros Hsent.
  destruct (secrets !! "SENDER_EMAIL") as [sender|] eqn:Hsender;
    [destruct (secrets !! "SENDER_PASSWORD") as [password|] eqn:Hpassword |].
  2: { rewrite send_email_no_credentials in Hsent; [discriminate | by right]. }
  2: { rewrite send_email_no_credentials in Hsent; [discriminate | by left]. }
  exists sender, password.
  rewrite (send_email_with_credentials w secrets _ _ _ sender password Hsender Hpassword)
    in Hsent |- *.
  rewrite deliver_cases in Hsent |- *. cbn zeta in Hsent |- *.
  assert (Hno : ∀ e, Ok (failure_answer e) ≠ Ok (true, message)).
  { intros e Heq. injection Heq as Heq. pose proof (failure_answer_false e) as Hf.
    rewrite Heq in Hf. discriminate. }
  destruct (compose w _); [by apply Hno in Hsent |].
  destruct (smtp_connect w _ _); [by apply Hno in Hsent |].
  destruct (smtp_starttls w); [destruct (smtp_quit w); by apply Hno in Hsent |].
  destruct (smtp_login w _ _); [destruct (smtp_quit w); by apply Hno in Hsent |].
  destruct (smtp_send w _); [destruct (smtp_quit w); by apply Hno in Hsent |].
  destruct (smtp_quit w); [by apply Hno in Hsent |].
  cbn in Hsent. injection Hsent as <-. done.
Qed.

End SendEmailClaims.

(** *** Strings *)

Lemma append_assoc (a b c : string) : (a +:+ b) +:+ c = a +:+ (b +:+ c).
Proof.
  induction a as [| x a IH]; [reflexivity |].
  change (String x ((a +:+ b) +:+ c) = String x (a +:+ (b +:+ c))). by rewrite IH.
Qed.

Lemma append_nil_r (a : string) : a +:+ EmptyString = a.
Proof.
  induction a as [| x a IH]; [reflexivity |].
  change (String x (a +:+ EmptyString) = String x a). by rewrite IH.
Qed.

Lemma append_cons (a : ascii) (s t : string) : String a s +:+ t = String a (s +:+ t).
Proof. reflexivity. Qed.

Lemma append_nil_l (t : string) : EmptyString +:+ t = t.
Proof. reflexivity. Qed.

Lemma startswith_app (p s t : string) :
  startswith p s = true → startswith p (s +:+ t) = true.
Proof.
  revert s. induction p as [| a p IH]; intros [| b s]; rewrite ?append_cons; cbn; try done.
  destruct (Ascii.eqb a b); [apply IH | done].
Qed.

Lemma contains_cons (p : string) (c : ascii) (s : string) :
  contains p (String c s) = startswith p (String c s) || contains p s.
Proof. reflexivity. Qed.

Lemma replace_absent (old new s : string) :
  contains old s = false → replace old new s = s.
Proof.
  unfold replace. induction s as [| c s IH]; [reflexivity |].
  rewrite contains_cons. intros [Hhere Hlater]%orb_false_elim.
  cbn [replace_from]. rewrite Hhere. f_equal. by apply IH.
Qed.

(** Leading whitespace goes, and a text that starts with a backquote stays. *)
Lemma space2_not_space1 (a b : ascii) : space2 a b = true → space1 a = false ∧ space1 b = false.
Proof.
  unfold space1, space2.
  destruct (N.eqb_spec (N_of_ascii a) 194) as [-> |]; [| done]. cbn [andb].
  destruct (N.eqb_spec (N_of_ascii b) 133) as [-> |]; [done |].
  destruct (N.eqb_spec (N_of_ascii b) 160) as [-> |]; done.
Qed.

Lemma space3_not_shorter (a b c : ascii) :
  space3 a b c = true →
  space1 a = false ∧ space2 a b = false ∧ space1 c = false ∧ space2 b c = false.
Proof.
  unfold space1, space2, space3. intros H.
  repeat match type of H with
| context [(?x =? ?y)%N] => destruct (N.eqb_spec x y) as [-> | ?]
  end; cbn in H |- *; try discriminate; repeat split; try reflexivity;
    repeat match goal with
    | |- context [(?x =? ?y)%N] => destruct (N.eqb_spec x y); try lia
    | |- context [(?x <=? ?y)%N] => destruct (N.leb_spec x y); try lia
    | H : context [(?x <=? ?y)%N] |- _ => destruct (N.leb_spec x y); try lia
    end; cbn in *; try done.
Qed.

Lemma lstrip_whitespace (ws x : string) :
  whitespace ws → lstrip (ws +:+ x) = lstrip x.
Proof.
  induction 1 as [| a s Ha _ IH | a b s Hab _ IH | a b c s Habc _ IH];
    rewrite ?append_cons, ?append_nil_l; [reflexivity | ..]; cbn [lstrip].
  - by rewrite Ha.
  - destruct (space2_not_space1 a b Hab) as [-> _]. by rewrite Hab.
  - destruct (space3_not_shorter a b c Habc) as (-> & -> & _). by rewrite Habc.
Qed.

Lemma lstrip_backquote (r : string) : lstrip (String "`" r) = String "`" r.
Proof. by destruct r as [| b [| c r]]. Qed.

Lemma lstrip_mirrored_backquote (r : string) :
  lstrip_mirrored (String "`" r) = String "`" r.
Proof.
  destruct r as [| b [| c r]]; cbn; [reflexivity | ..].
  - unfold space2. cbn. by rewrite andb_false_r.
  - unfold space2, space3. cbn. by rewrite !andb_false_r.
Qed.

Lemma rev_onto_app (s acc : string) : rev_onto s acc = rev s +:+ acc.
Proof.
  unfold rev. revert acc. induction s as [| c s IH]; intros acc; [reflexivity |].
  cbn [rev_onto]. rewrite IH, (IH (String c EmptyString)), append_assoc. reflexivity.
Qed.

Lemma rev_cons (c : ascii) (s : string) : rev (String c s) = rev s +:+ String c EmptyString.
Proof. unfold rev at 1. cbn [rev_onto]. apply rev_onto_app. Qed.

Lemma rev_app (a b : string) : rev (a +:+ b) = rev b +:+ rev a.
Proof.
  induction a as [| c a IH]; [by rewrite append_nil_l, append_nil_r |].
  by rewrite append_cons, !rev_cons, IH, append_assoc.
Qed.

Lemma rev_involutive (s : string) : rev (rev s) = s.
Proof.
  induction s as [| c s IH]; [reflexivity |].
  by rewrite rev_cons, rev_app, IH.
Qed.

Lemma lstrip_mirrored_whitespace (ws x : string) :
  whitespace ws → lstrip_mirrored (rev ws +:+ x) = lstrip_mirrored x.
Proof.
  intros Hws. revert x.
  induction Hws as [| a s Ha _ IH | a b s Hab _ IH | a b c s Habc _ IH]; intros x;
    [reflexivity | ..]; rewrite !rev_cons, !append_assoc, IH, ?append_cons, ?append_nil_l;
    cbn [lstrip_mirrored].
  - by rewrite Ha.
  - destruct (space2_not_space1 a b Hab) as [_ ->]. by rewrite Hab.
  - destruct (space3_not_shorter a b c Habc) as (_ & _ & -> & ->). by rewrite Habc.
Qed.

Lemma fenced_starts (s : string) : ∃ r, fenced s = String "`" r.
Proof. unfold fenced. rewrite append_cons. by eexists. Qed.

Lemma rev_fenced_starts (s : string) : ∃ r, rev (fenced s) = String "`" r.
Proof.
  unfold fenced. rewrite !rev_app. change (rev "```") with "```".
  rewrite append_cons. by eexists.
Qed.

Lemma strip_fenced (ws1 ws2 s : string) :
  whitespace ws1 → whitespace ws2 →
  strip (ws1 +:+ fenced s +:+ ws2) = fenced s.
Proof.
  intros Hws1 Hws2. unfold strip, rstrip. rewrite (lstrip_whitespace _ _ Hws1).
  destruct (fenced_starts s) as [r Hr].
  rewrite Hr, append_cons, lstrip_backquote, <- append_cons, <- Hr.
  rewrite rev_app, (lstrip_mirrored_whitespace _ _ Hws2).
  destruct (rev_fenced_starts s) as [r' Hr'].
  by rewrite Hr', lstrip_mirrored_backquote, <- Hr', rev_involutive.
Qed.

(** Removing the fence of a fenced text that has no fence inside. *)
Lemma no_open_fence_after (s : string) :
  contains "```" s = false → contains "```json" (s +:+ "```") = false.
Proof.
  induction s as [| c s IH]; intros Hs; [reflexivity |].
  rewrite contains_cons in Hs. apply orb_false_elim in Hs as [Hhere Hlater].
  rewrite append_cons, contains_cons, (IH Hlater), orb_false_r.
  cbn [startswith]. destruct (Ascii.eqb "`" c) eqn:Hc; [| reflexivity].
  destruct s as [| d s]; [reflexivity |].
  rewrite append_cons. cbn [startswith]. destruct (Ascii.eqb "`" d) eqn:Hd; [| reflexivity].
  destruct s as [| e s]; [reflexivity |].
  rewrite append_cons. cbn [startswith]. destruct (Ascii.eqb "`" e) eqn:He; [| reflexivity].
  cbn [startswith] in Hhere. rewrite Hc, Hd, He in Hhere. discriminate.
Qed.

Lemma replace_open_fence (s : string) :
  contains "```" s = false →
  replace "```json" EmptyString (fenced s) = s +:+ "```".
Proof.
  intros Hs. unfold fenced, replace. rewrite !append_cons, append_nil_l.
  cbn. rewrite append_nil_l.
  apply (replace_absent "```json" EmptyString). by apply no_open_fence_after.
Qed.

Lemma replace_close_fence (s : string) :
  contains "```" s = false →
  replace "```" EmptyString (s +:+ "```") = s.
Proof.
  unfold replace. induction s as [| c s IH]; intros Hs; [reflexivity |].
  rewrite contains_cons in Hs. apply orb_false_elim in Hs as [Hhere Hlater].
  rewrite append_cons. cbn [replace_from].
  destruct (startswith "```" (String c (s +:+ "```"))) eqn:Hfence.
  2: { f_equal. by apply IH. }
  cbn [startswith] in Hfence, Hhere.
  destruct (Ascii.eqb_spec "`" c) as [<- |]; [| discriminate].
  destruct s as [| d s]; [reflexivity |].
  rewrite append_cons in Hfence.
  destruct (Ascii.eqb_spec "`" d) as [<- |]; [| discriminate].
  destruct s as [| e s]; [reflexivity |].
  rewrite append_cons in Hfence.
  destruct (Ascii.eqb_spec "`" e) as [<- |]; discriminate.
Qed.

#[local] Arguments String.append : simpl never.
#[local] Arguments send_email : simpl never.
#[local] Arguments deliver : simpl never.
#[local] Arguments render_alert : simpl never.
#[local] Arguments build_report : simpl never.
#[local] Arguments send_with_spinner : simpl never.
#[local] Arguments send_or_review : simpl never.
#[local] Arguments process_response : simpl never.
#[local] Arguments analyze : simpl never.
#[local] Arguments prompt : simpl never.
#[local] Arguments json_text : simpl never.

(** *** The cards and the e-mail of well-formed alerts *)

Section Report.

Context {dataframe scalar : Type}.
Variable w : world dataframe scalar.
Variable df : dataframe.
Variables alert_threshold slump_threshold : Z.

Lemma field_ok (alert v : json) (key : string) :
  Py.getitem alert key = Ok v →
  field w alert key = ([], Ok (show w v)).
Proof. intros Hget. unfold field. rewrite Hget. reflexivity. Qed.

Lemma render_alert_complete (alert : json) (f : alert_fields) (sku_data : dataframe)
    (email_body_text : string) :
  renders_as w df alert (f, sku_data) →
  render_alert w df alert_threshold slump_threshold alert email_body_text
  = (card w alert_threshold slump_threshold f sku_data,
     Ok (email_body_text +:+ email_block w alert_threshold slump_threshold f)).
Proof.
  intros ((Htype & Hsku & Hlocation & Htoday & Havg & Hchange & Hcause) & Hrows & Hchart).
  cbn [fst snd] in *.
  unfold render_alert, card, email_block, email_values, spike_line, slump_line,
    spike_heading, slump_heading.
  rewrite Htype, Hsku.
  rewrite !(field_ok _ _ _ Hsku), (field_ok _ _ _ Hlocation), (field_ok _ _ _ Htoday),
    (field_ok _ _ _ Havg), (field_ok _ _ _ Hchange), (field_ok _ _ _ Hcause).
  run. destruct (Py.eq_str (a_type f) "spike"); run; rewrite Hrows; run; rewrite Hchart; run;
    by rewrite !append_assoc.
Qed.

End Report.

(** *** Events of composed computations *)

Section Only.

Context {dataframe scalar : Type}.
Variable w : world dataframe scalar.
Variable P : event dataframe → Prop.

Lemma events_bind {A B} (m : M dataframe A) (k : A → M dataframe B) :
  events (bind m k)
  = events m ++ match outcome m with
                | Ok a => events (k a)
                | Raise _ => []
                end.
Proof.
  unfold events, outcome, bind. destruct m as [t [a | e]]; cbn.
  - by destruct (k a).
  - by rewrite app_nil_r.
Qed.

Lemma bind_ok_inv {A B} (m : M dataframe A) (k : A → M dataframe B) (b : B) :
  outcome (bind m k) = Ok b → ∃ a, outcome m = Ok a ∧ outcome (k a) = Ok b.
Proof.
  unfold outcome, bind. destruct m as [t [a | e]]; cbn; [| discriminate].
  intros Hk. exists a. split; [reflexivity |]. by destruct (k a).
Qed.

Lemma only_ret {A} (a : A) : only P (ret a).
Proof. apply Forall_nil_2. Qed.

Lemma only_raise {A} (e : exn) : only P (@raise dataframe A e).
Proof. apply Forall_nil_2. Qed.

Lemma only_lift {A} (r : result A) : only P (lift r).
Proof. apply Forall_nil_2. Qed.

Lemma only_check (o : option exn) : only P (check o).
Proof. destruct o; apply Forall_nil_2. Qed.

Lemma only_emit (ev : event dataframe) : P ev → only P (emit ev).
Proof. intros Hev. apply Forall_cons_2; [exact Hev | apply Forall_nil_2]. Qed.

Lemma only_bind {A B} (m : M dataframe A) (k : A → M dataframe B) :
  only P m → (∀ a, only P (k a)) → only P (bind m k).
Proof.
  unfold only, events, bind. intros Hm Hk. destruct m as [t [a | e]]; [| exact Hm].
  specialize (Hk a). destruct (k a) as [t' r]. apply Forall_app_2; assumption.
Qed.

Lemma only_try {A} (m : M dataframe A)
    (clauses : list ((exn → bool) * (exn → M dataframe A))) :
  only P m → Forall (λ c, ∀ e, only P (snd c e)) clauses →
  only P (try_except m clauses).
Proof.
  unfold only, events, try_except. intros Hm Hclauses.
  destruct m as [t [a | e]]; [exact Hm |].
  destruct (List.find _ clauses) as [c |] eqn:Hfind; [| exact Hm].
  apply find_some in Hfind as [Hin _]. apply list_elem_of_In in Hin.
  rewrite Forall_forall in Hclauses. specialize (Hclauses c Hin e).
  destruct (snd c e) as [t' r]. apply Forall_app_2; assumption.
Qed.

Lemma only_within {A} (b : block) (m : M dataframe A) :
  P (Enter b) → P (Leave b) → only P m → only P (within b m).
Proof.
  unfold only, events, within. intros Henter Hleave Hm. destruct m as [t r]. cbn.
  apply Forall_cons_2; [exact Henter |]. apply Forall_app_2; [exact Hm |].
  apply Forall_cons_2; [exact Hleave | apply Forall_nil_2].
Qed.

Lemma only_with_smtp {A} (host : string) (port : Z) (body : M dataframe A) :
  P (SmtpConnect host port) → P SmtpQuit → only P body →
  only P (with_smtp w host port body).
Proof.
  unfold only, events, with_smtp. intros Hconnect Hquit Hbody. run.
  destruct (smtp_connect w host port); cbn.
  - apply Forall_cons_2; [exact Hconnect | apply Forall_nil_2].
  - destruct body as [t r]. cbn. apply Forall_cons_2; [exact Hconnect |].
    apply Forall_app_2; [exact Hbody |].
    apply Forall_cons_2; [exact Hquit | apply Forall_nil_2].
Qed.

End Only.

(** Goes through a computation and leaves one goal per event it can emit. *)
Ltac only_steps :=
  repeat first
    [ match goal with
      | |- only _ (with_smtp _ _ _ _) => apply only_with_smtp
      | |- only _ (within _ _) => apply only_within
      | |- only _ (try_except _ _) =>
          apply only_try; [| repeat (apply Forall_cons_2; [intros ? |]); try apply Forall_nil_2]
      | |- only _ (bind _ _) => apply only_bind; [| intros ?]
      | |- only _ (emit _) => apply only_emit
      | |- only _ (ret _) => apply only_ret
      | |- only _ (raise _) => apply only_raise
      | |- only _ (lift _) => apply only_lift
      | |- only _ (check _) => apply only_check
      end
    | match goal with
      | |- only _ (if ?b then _ else _) => destruct b
      | |- only _ (match ?x with _ => _ end) => destruct x
      | |- only _ (let (_, _) := ?x in _) => destruct x
      end ].

Section ReportClaims.

Context {dataframe scalar : Type}.
Variable w : world dataframe scalar.
Variable df : dataframe.
Variables alert_threshold slump_threshold : Z.

Lemma render_alerts_complete (alerts : list json)
    (shown : list (alert_fields * dataframe)) :
  Forall2 (renders_as w df) alerts shown →
  ∀ email_body_text,
    render_alerts w df alert_threshold slump_threshold alerts email_body_text
    = (cards w alert_threshold slump_threshold shown,
       Ok (email_body_text +:+ email_blocks w alert_threshold slump_threshold shown)).
Proof.
  induction 1 as [| alert [f sku_data] alerts shown Halert _ IH]; intros email_body_text.
  - cbn. by rewrite append_nil_r.
  - cbn [render_alerts].
    rewrite (render_alert_complete w df _ _ alert f sku_data email_body_text Halert).
    unfold bind. rewrite IH. cbn [cards flat_map email_blocks fst snd].
    by rewrite append_assoc.
Qed.

(** A reply that is false in Python ([[]], [{}], [null], [0], ...) gives
    the report with no warning. *)
Lemma build_report_falsy (alerts : json) :
  Py.truthy alerts = false →
  build_report w df alert_threshold slump_threshold alerts
  = ([Markdown no_warnings; Markdown "---"],
     Ok (greeting +:+ no_warnings +:+ signature)).
Proof.
  intros Hfalsy. unfold build_report. rewrite Hfalsy. run. by rewrite append_assoc.
Qed.

(** The report shows nothing but markdown and charts. *)
Lemma build_report_quiet (alerts : json) :
  only (λ ev, is_report_event ev = true)
    (build_report w df alert_threshold slump_threshold alerts).
Proof.
  assert (Hone : ∀ alert body,
    only (λ ev, is_report_event ev = true)
      (render_alert w df alert_threshold slump_threshold alert body)).
  { intros alert body. unfold render_alert, field. only_steps; done. }
  assert (Hall : ∀ items body,
    only (λ ev, is_report_event ev = true)
      (render_alerts w df alert_threshold slump_threshold items body)).
  { induction items as [| alert items IH]; intros body; cbn [render_alerts].
    - apply only_ret.
    - apply only_bind; [apply Hone | intros ?; apply IH]. }
  unfold build_report. apply only_bind.
  - destruct (negb (Py.truthy alerts)).
    + only_steps; done.
    + apply only_bind; [apply only_lift | intros ?; apply Hall].
  - intros ?. only_steps; done.
Qed.

(** C5, as the code has it: when every element of the parsed list is an
    alert with the seven keys and the chart of its SKU can be drawn, the
    report is one card per alert, in the order of the list, each showing
    the heading of its type and its six other values, and the body of the
    e-mail is the greeting, one block per alert in the same order carrying
    sku, location, today_sales, avg_sales, change_pct and cause, and the
    signature. *)
Theorem well_formed_alerts_render_cards (alerts : list json)
    (shown : list (alert_fields * dataframe)) :
  alerts ≠ [] →
  Forall2 (renders_as w df) alerts shown →
  build_report w df alert_threshold slump_threshold (JArr alerts)
  = (cards w alert_threshold slump_threshold shown ++ [Markdown "---"],
     Ok (greeting +:+ email_blocks w alert_threshold slump_threshold shown +:+ signature))
  ∧ length shown = length alerts.
Proof.
  intros Hnonempty Hshown. split; [| symmetry; by eapply Forall2_length].
  unfold build_report. destruct alerts as [| alert alerts]; [done |].
  cbn [Py.truthy negb Py.iter]. unfold lift at 1. unfold bind at 2.
  rewrite (render_alerts_complete _ _ Hshown). run. by rewrite append_assoc.
Qed.

(** C9: the branch on [alert['type']] has two sides and checks nothing
    else.  An alert whose [type] is the string [spike], and no other, gets
    the spike heading; an alert with any other [type], a string or not,
    gets the slump heading.  The heading is shown on the screen as soon as
    the [type] is read, every body the turn of the loop returns has the line
    of the same heading after the text it was given, and when the alert has
    its six other values and its chart can be drawn the turn does return:
    the card starts with that heading and the body of the e-mail, for a
    list with this one alert, is the greeting, the line of that heading, the
    six values and the signature. *)
Theorem alert_type_is_two_valued (alert type : json) (email_body_text : string) :
  Py.getitem alert "type" = Ok type →
  let spike := Py.eq_str type "spike" in
  let heading :=
    if spike
    then "### ⚠️ SPIKE WARNING (>" +:+ str_of_int alert_threshold +:+ "%)"
    else "### 📉 SLUMP WARNING (>" +:+ str_of_int slump_threshold +:+ "%)" in
  let line :=
    if spike
    then "--- " +:+ nl +:+ " ⚠️ SPIKE WARNING (>" +:+ str_of_int alert_threshold
         +:+ "%) " +:+ nl
    else "--- " +:+ nl +:+ " 📉 SLUMP WARNING (>" +:+ str_of_int slump_threshold
         +:+ "%) " +:+ nl in
  (spike = true ↔ type = JStr "spike")
  ∧ (∃ rest,
       events (render_alert w df alert_threshold slump_threshold alert email_body_text)
       = Markdown "---" :: Markdown heading :: rest)
  ∧ (∀ body,
       outcome (render_alert w df alert_threshold slump_threshold alert email_body_text)
       = Ok body →
       ∃ values, body = email_body_text +:+ line +:+ values)
  ∧ (∀ f sku_data,
       renders_as w df alert (f, sku_data) →
       (∃ rest,
          render_alert w df alert_threshold slump_threshold alert email_body_text
          = (Markdown "---" :: Markdown heading :: rest,
             Ok (email_body_text +:+ line +:+ email_values w f)))
       ∧ (∃ rest,
            build_report w df alert_threshold slump_threshold (JArr [alert])
            = (Markdown "---" :: Markdown heading :: rest,
               Ok (("Hi Team," +:+ nl +:+ nl
                    +:+ "My analysis is complete. Here are the findings:" +:+ nl +:+ nl)
                   +:+ (line +:+ email_values w f)
                   +:+ (nl +:+ nl +:+ "Best," +:+ nl +:+ "Sales Velocity Agent"))))).
Proof.
  intros Htype spike heading line. subst spike heading line.
  split; [| split; [| split]].
  - destruct type; cbn; try (split; [discriminate | discriminate]).
    rewrite String.eqb_eq. split; [by intros -> | by intros [= ->]].
  - unfold render_alert. rewrite Htype. rewrite events_bind.
    cbn [lift events outcome fst snd app]. rewrite events_bind.
    destruct (Py.eq_str type "spike"); eexists; reflexivity.
  - intros body Hbody. unfold render_alert in Hbody. rewrite Htype in Hbody.
    apply bind_ok_inv in Hbody as (? & [= <-] & Hbody).
    apply bind_ok_inv in Hbody as (headed & Hheaded & Hbody).
    assert (headed = email_body_text +:+
              (if Py.eq_str type "spike"
               then spike_line alert_threshold else slump_line slump_threshold))
      as ->.
    { unfold spike_line, slump_line.
      destruct (Py.eq_str type "spike"); by injection Hheaded as <-. }
    clear Hheaded.
    repeat (apply bind_ok_inv in Hbody as (? & _ & Hbody)).
    injection Hbody as <-. eexists. unfold spike_line, slump_line.
    destruct (Py.eq_str type "spike"); rewrite !append_assoc; reflexivity.
  - intros f sku_data Hrender.
    assert (Hsame : a_type f = type).
    { destruct Hrender as ((Hf & _) & _). cbn [fst] in Hf. congruence. }
    split.
    + rewrite (render_alert_complete w df _ _ alert f sku_data email_body_text Hrender).
      unfold card, email_block, spike_heading, slump_heading, spike_line, slump_line.
      rewrite Hsame. destruct (Py.eq_str type "spike"); eexists; reflexivity.
    + unfold build_report. cbn [Py.truthy negb Py.iter]. unfold lift at 1. unfold bind at 2.
      rewrite (render_alerts_complete [alert] [(f, sku_data)]);
        [| constructor; [exact Hrender | constructor]].
      run. rewrite append_nil_r, (append_assoc greeting).
      unfold email_block, spike_heading, slump_heading, spike_line, slump_line,
        greeting, signature.
      rewrite Hsame. destruct (Py.eq_str type "spike"); eexists; reflexivity.
Qed.

End ReportClaims.

(** *** From the reply to the report *)

Section Analysis.

Context {dataframe scalar : Type}.
Variable w : world dataframe scalar.
Variable secrets : gmap string string.
Variable i : inputs.
Variable df : dataframe.

Lemma send_with_spinner_cases (recipient subject_clean email_body_text : string) :
  send_with_spinner w secrets recipient subject_clean email_body_text
  = match secrets !! "SENDER_EMAIL" with
    | None => ([], Raise (Exn KeyError (missing_secret w "SENDER_EMAIL")))
    | Some sender =>
        let spinner := Spinner ("Sending email from " +:+ sender +:+ "...") in
        match send_email w secrets recipient subject_clean email_body_text with
        | (t, Ok (true, message)) =>
            (Enter spinner :: t ++ [Leave spinner; StSuccess message], Ok tt)
        | (t, Ok (false, _)) => (Enter spinner :: t ++ [Leave spinner], Ok tt)
        | (t, Raise e) => (Enter spinner :: t ++ [Leave spinner], Raise e)
        end
    end.
Proof.
  unfold send_with_spinner, secret.
  destruct (secrets !! "SENDER_EMAIL") as [sender |]; [| reflexivity].
  run. destruct (send_email w secrets recipient subject_clean email_body_text)
    as [t [[[|] message] | e]]; cbn.
  - by rewrite <- app_assoc.
  - by rewrite app_nil_r.
  - reflexivity.
Qed.

Lemma send_email_starts_with_call (recipient subject body : string) :
  ∃ rest,
    events (send_email w secrets recipient subject body)
    = CallSendEmail recipient subject body :: rest
    ∧ Forall (λ ev, is_side_event ev = true) rest.
Proof.
  destruct (secrets !! "SENDER_EMAIL") as [sender|] eqn:Hsender;
    [destruct (secrets !! "SENDER_PASSWORD") as [password|] eqn:Hpassword |].
  2: { rewrite send_email_no_credentials; [| by right].
       eexists; split; [reflexivity |].
       repeat (apply Forall_cons_2; [reflexivity |]). apply Forall_nil_2. }
  2: { rewrite send_email_no_credentials; [| by left].
       eexists; split; [reflexivity |].
       repeat (apply Forall_cons_2; [reflexivity |]). apply Forall_nil_2. }
  rewrite (send_email_with_credentials w secrets _ _ _ sender password Hsender Hpassword).
  assert (Hdeliver : only (λ ev, is_side_event ev = true)
                       (deliver w sender password recipient subject body)).
  { unfold deliver. only_steps; reflexivity. }
  unfold only, events in Hdeliver.
  destruct (deliver w sender password recipient subject body) as [t [answer | e]];
    eexists; (split; [reflexivity |]); [exact Hdeliver |].
  apply Forall_app_2; [exact Hdeliver |].
  apply Forall_cons_2; [reflexivity | apply Forall_nil_2].
Qed.

Lemma send_email_total (recipient subject body : string) :
  ∃ answer, outcome (send_email w secrets recipient subject body) = Ok answer.
Proof.
  destruct (secrets !! "SENDER_EMAIL") as [sender|] eqn:Hsender;
    [destruct (secrets !! "SENDER_PASSWORD") as [password|] eqn:Hpassword |].
  - rewrite (send_email_with_credentials w secrets _ _ _ sender password Hsender Hpassword).
    destruct (deliver w sender password recipient subject body) as [t [answer | e]];
      eexists; reflexivity.
  - rewrite send_email_no_credentials; [| by right]. eexists; reflexivity.
  - rewrite send_email_no_credentials; [| by left]. eexists; reflexivity.
Qed.

Lemma process_response_ok (prompt subject_text text : string) :
  process_response w secrets i df prompt subject_text (Ok text)
  = match json_loads w (json_text text) with
    | Raise e => (handled text e, Ok tt)
    | Ok alerts =>
        match build_report w df (alert_threshold i) (slump_threshold i) alerts with
        | (t, Raise e) => (t ++ handled text e, Ok tt)
        | (t, Ok email_body_text) =>
            match send_or_review w secrets i
                    (replace "SUBJECT: " EmptyString subject_text) email_body_text with
            | (t', Raise e) => (t ++ t' ++ handled text e, Ok tt)
            | (t', Ok _) => (t ++ t' ++ prompt_reveal prompt, Ok tt)
            end
        end
    end.
Proof.
  unfold process_response, handled, prompt_reveal. run.
  destruct (json_loads w (json_text text)) as [alerts | e]; cbn.
  2: { by destruct (is_JSONDecodeError e). }
  destruct (build_report w df _ _ alerts) as [t [email_body_text | e]]; cbn.
  2: { by destruct (is_JSONDecodeError e). }
  destruct (send_or_review w secrets i _ email_body_text) as [t' [[] | e]]; cbn.
  - by rewrite ?app_assoc.
  - destruct (is_JSONDecodeError e); cbn; by rewrite ?app_assoc.
Qed.

(** With the text of the reply at hand, [process_response] handles every
    exception itself. *)
Lemma process_response_total (prompt subject_text text : string) :
  outcome (process_response w secrets i df prompt subject_text (Ok text)) = Ok tt.
Proof.
  rewrite process_response_ok.
  destruct (json_loads w (json_text text)) as [alerts | e]; [| reflexivity].
  destruct (build_report w df _ _ alerts) as [t [email_body_text | e]]; [| reflexivity].
  by destruct (send_or_review w secrets i _ email_body_text) as [t' [[] | e]].
Qed.

Lemma analyze_replied (data_as_text text : string) :
  let prompt :=
    prompt data_as_text (business_context i)
      (alert_threshold i) (warn_on_slump i) (slump_threshold i) in
  let spinner :=
    Spinner (spinner_text (alert_threshold i) (warn_on_slump i) (slump_threshold i)) in
  generate_content w prompt = Ok (Ok text) →
  analyze w secrets i df data_as_text
  = (Enter spinner
       :: GenerateContent prompt
       :: StSuccess "Analysis Complete!"
       :: Markdown "### 🤖 AI-Generated Visual Report"
       :: events (process_response w secrets i df prompt
                    (subject_text (alert_threshold i) (warn_on_slump i)) (Ok text))
       ++ [Leave spinner],
     Ok tt).
Proof.
  intros prompt spinner Hreply. unfold analyze. fold prompt. rewrite Hreply.
  pose proof (process_response_total prompt
                (subject_text (alert_threshold i) (warn_on_slump i)) text) as Htotal.
  run. unfold outcome in Htotal.
  destruct (process_response w secrets i df prompt _ (Ok text)) as [t r].
  cbn in Htotal. subst r. reflexivity.
Qed.

End Analysis.

(** *** What a run calls and shows *)

Section Projections.

Context {dataframe : Type}.
Implicit Types t u : list (event dataframe).

Lemma send_email_calls_app t u :
  send_email_calls (t ++ u) = send_email_calls t ++ send_email_calls u.
Proof. apply List.flat_map_app. Qed.

Lemma model_calls_app t u : model_calls (t ++ u) = model_calls t ++ model_calls u.
Proof. apply List.flat_map_app. Qed.

Lemma buttons_app t u : buttons (t ++ u) = buttons t ++ buttons u.
Proof. apply List.flat_map_app. Qed.

Lemma email_events_app t u : email_events (t ++ u) = email_events t ++ email_events u.
Proof. apply List.filter_app. Qed.

Lemma send_email_calls_cons ev t :
  send_email_calls (ev :: t) = send_email_calls [ev] ++ send_email_calls t.
Proof. apply (send_email_calls_app [ev] t). Qed.

Lemma model_calls_cons ev t : model_calls (ev :: t) = model_calls [ev] ++ model_calls t.
Proof. apply (model_calls_app [ev] t). Qed.

Lemma buttons_cons ev t : buttons (ev :: t) = buttons [ev] ++ buttons t.
Proof. apply (buttons_app [ev] t). Qed.

Lemma email_events_cons ev t :
  email_events (ev :: t) = email_events [ev] ++ email_events t.
Proof. apply (email_events_app [ev] t). Qed.

Lemma side_events_silent t :
  Forall (λ ev, is_side_event ev = true) t →
  send_email_calls t = [] ∧ model_calls t = [] ∧ buttons t = [].
Proof.
  induction 1 as [| ev t Hev _ (IH1 & IH2 & IH3)]; [done |].
  destruct ev; try discriminate Hev; cbn; by rewrite ?IH1, ?IH2, ?IH3.
Qed.

Lemma report_events_silent t :
  Forall (λ ev, is_report_event ev = true) t →
  send_email_calls t = [] ∧ model_calls t = [] ∧ buttons t = [] ∧ email_events t = [].
Proof.
  induction 1 as [| ev t Hev _ (IH1 & IH2 & IH3 & IH4)]; [done |].
  unfold email_events in *.
  destruct ev; try discriminate Hev; cbn; by rewrite ?IH1, ?IH2, ?IH3, ?IH4.
Qed.

End Projections.

(** Splits the projections of a list of events along its structure. *)
Ltac split_events :=
  rewrite ?send_email_calls_app, ?model_calls_app, ?buttons_app, ?email_events_app;
  repeat match goal with
| |- context [send_email_calls (?ev :: ?t)] =>
      lazymatch t with [] => fail | _ => rewrite (send_email_calls_cons ev t) end
| |- context [model_calls (?ev :: ?t)] =>
      lazymatch t with [] => fail | _ => rewrite (model_calls_cons ev t) end
| |- context [buttons (?ev :: ?t)] =>
      lazymatch t with [] => fail | _ => rewrite (buttons_cons ev t) end
| |- context [email_events (?ev :: ?t)] =>
      lazymatch t with [] => fail | _ => rewrite (email_events_cons ev t) end
| _ => progress rewrite ?send_email_calls_app, ?model_calls_app, ?buttons_app,
           ?email_events_app
  end.

Section Click.

Context {dataframe scalar : Type}.
Variable w : world dataframe scalar.
Variable secrets : gmap string string.
Variable i : inputs.
Variable df : dataframe.

(** With the sender in the secrets, the spinner and [send_email] run to
    the end, and [send_email] is called once. *)
Lemma send_with_spinner_sent (sender recipient subject_clean email_body_text : string) :
  secrets !! "SENDER_EMAIL" = Some sender →
  ∃ t,
    send_with_spinner w secrets recipient subject_clean email_body_text = (t, Ok tt)
    ∧ send_email_calls t = [(recipient, subject_clean, email_body_text)]
    ∧ model_calls t = []
    ∧ buttons t = [].
Proof.
  intros Hsender. rewrite send_with_spinner_cases, Hsender. cbn zeta.
  destruct (send_email_starts_with_call w secrets recipient subject_clean email_body_text)
    as (rest & Hevents & Hrest).
  destruct (send_email_total w secrets recipient subject_clean email_body_text)
    as [[success message] Hanswer].
  apply side_events_silent in Hrest as (Hcalls & Hmodel & Hbuttons).
  unfold events, outcome in Hevents, Hanswer.
  destruct (send_email w secrets recipient subject_clean email_body_text) as [t r].
  cbn in Hevents, Hanswer. subst t r.
  destruct success; eexists; (split; [reflexivity |]);
    split_events; rewrite Hcalls, Hmodel, Hbuttons; done.
Qed.

Lemma auto_send_needs_recipient : auto_send i = true → recipient_email i ≠ EmptyString.
Proof.
  unfold auto_send. destruct (String.eqb_spec (recipient_email i) EmptyString); done.
Qed.

(** With the sender in the secrets: whom [send_or_review] calls and which
    button it shows. *)
Lemma send_or_review_sent (sender subject_clean email_body_text : string) :
  secrets !! "SENDER_EMAIL" = Some sender →
  ∃ t,
    send_or_review w secrets i subject_clean email_body_text = (t, Ok tt)
    ∧ send_email_calls t
      = (if auto_send i || send_button i
         then [(recipient_email i, subject_clean, email_body_text)] else [])
    ∧ buttons t = (if auto_send i then [] else [review_button])
    ∧ model_calls t = []
    ∧ (auto_send i = false → send_button i = false → email_events t = []).
Proof.
  intros Hsender. unfold send_or_review.
  destruct (send_with_spinner_sent sender (recipient_email i) subject_clean
              email_body_text Hsender) as (t & Hsend & Hcalls & Hmodel & Hbuttons).
  destruct (auto_send i); [| destruct (send_button i)]; run; rewrite ?Hsend;
    eexists; (split; [reflexivity |]);
    split_events; rewrite ?Hcalls, ?Hmodel, ?Hbuttons; done.
Qed.

End Click.

Section ClickClaims.

Context {dataframe scalar : Type}.
Variable w : world dataframe scalar.
Variable secrets : gmap string string.
Variable i : inputs.
Variable df : dataframe.

(** Every call of [send_email] that [send_or_review] makes has the
    recipient of the form, the subject and the body it was given. *)
Lemma send_or_review_calls (subject_clean email_body_text : string) :
  Forall (λ c, c = (recipient_email i, subject_clean, email_body_text))
    (send_email_calls (events (send_or_review w secrets i subject_clean email_body_text))).
Proof.
  destruct (secrets !! "SENDER_EMAIL") as [sender |] eqn:Hsender.
  - destruct (send_or_review_sent w secrets i sender subject_clean email_body_text Hsender)
      as (t & Hrun & Hcalls & _).
    rewrite Hrun. unfold events. cbn [fst]. rewrite Hcalls.
    destruct (auto_send i || send_button i);
      [apply Forall_cons_2; [reflexivity |] |]; apply Forall_nil_2.
  - unfold send_or_review.
    rewrite send_with_spinner_cases, Hsender.
    destruct (auto_send i); [| destruct (send_button i)]; apply Forall_nil_2.
Qed.

(** Without the sender in the secrets the spinner text of lines 268 and 282
    raises [KeyError] before [send_email] is entered: the report of a missing
    sender that [send_email] has (lines 63-66) is not reached from the script,
    and the click shows "Error while processing alerts" instead. *)
Lemma send_or_review_without_sender (subject_clean email_body_text : string) :
  secrets !! "SENDER_EMAIL" = None →
  auto_send i = true →
  send_or_review w secrets i subject_clean email_body_text
  = ([StInfo ("Autonomous mode enabled. Sending alert to `"
              +:+ recipient_email i +:+ "`...")],
     Raise (Exn KeyError (missing_secret w "SENDER_EMAIL"))).
Proof.
  intros Hsender Hauto. unfold send_or_review.
  rewrite Hauto, send_with_spinner_cases, Hsender. reflexivity.
Qed.

(** C3: when the text of the reply, its fence removed, makes [json.loads]
    raise [JSONDecodeError], the click shows the error message and then the
    raw text of the reply, in that order and nothing else after the report
    heading; [send_email] is not called and no SMTP step is made; the model
    was called once, with the prompt. *)
Theorem malformed_json_is_surfaced (data_as_text text : string) (e : exn) :
  let prompt :=
    prompt data_as_text (business_context i)
      (alert_threshold i) (warn_on_slump i) (slump_threshold i) in
  let spinner :=
    Spinner (spinner_text (alert_threshold i) (warn_on_slump i) (slump_threshold i)) in
  generate_content w prompt = Ok (Ok text) →
  json_loads w (json_text text) = Raise e →
  is_JSONDecodeError e = true →
  let run := analyze w secrets i df data_as_text in
  run = ([Enter spinner;
          GenerateContent prompt;
          StSuccess "Analysis Complete!";
          Markdown "### 🤖 AI-Generated Visual Report";
          StError bad_json;
          StText text;
          Leave spinner],
         Ok tt)
  ∧ send_email_calls (events run) = []
  ∧ email_events (events run) = []
  ∧ model_calls (events run) = [prompt].
Proof.
  intros prompt spinner Hreply Hparse Hclass run.
  assert (Hrun : run = ([Enter spinner; GenerateContent prompt;
                         StSuccess "Analysis Complete!";
                         Markdown "### 🤖 AI-Generated Visual Report";
                         StError bad_json; StText text; Leave spinner], Ok tt)).
  { subst run. rewrite (analyze_replied w secrets i df data_as_text text Hreply).
    fold prompt spinner. rewrite process_response_ok, Hparse.
    unfold handled. rewrite Hclass. reflexivity. }
  rewrite Hrun. done.
Qed.

(** C2: a reply made of a fence, a text [s] with no fence in it and the
    closing fence, with whitespace around, is parsed as [s] is: the text
    given to [json.loads] is [s] itself.  When [s] denotes the empty list
    the report is the sentence "All SKUs are operating within normal sales
    velocity. No warnings to report."; the body of every e-mail the click
    sends is the greeting, that sentence and the signature; and with the
    sender in the secrets, a recipient and the auto-send box ticked, the
    click does send one e-mail with that body. *)
Theorem fenced_reply_is_parsed (ws1 ws2 s : string) (alerts : json) :
  whitespace ws1 → whitespace ws2 →
  contains "```" s = false →
  json_loads w s = Ok alerts →
  let text := ws1 +:+ fenced s +:+ ws2 in
  let sentence :=
    "All SKUs are operating within normal sales velocity. No warnings to report." in
  let body :=
    "Hi Team," +:+ nl +:+ nl +:+ "My analysis is complete. Here are the findings:"
    +:+ nl +:+ nl +:+ sentence +:+ nl +:+ nl +:+ "Best," +:+ nl +:+ "Sales Velocity Agent" in
  json_text text = s
  ∧ json_loads w (json_text text) = Ok alerts
  ∧ (alerts = JArr [] →
     ∀ prompt subject_text,
       let run := process_response w secrets i df prompt subject_text (Ok text) in
       (∃ rest, events run = Markdown sentence :: Markdown "---" :: rest)
       ∧ Forall (λ c, c.2 = body) (send_email_calls (events run))
       ∧ contains sentence body = true
       ∧ (∀ sender,
            secrets !! "SENDER_EMAIL" = Some sender →
            recipient_email i ≠ EmptyString →
            auto_send_checkbox i = true →
            send_email_calls (events run)
            = [(recipient_email i, replace "SUBJECT: " EmptyString subject_text, body)])).
Proof.
  intros Hws1 Hws2 Hfence Hparse text sentence body.
  assert (Htext : json_text text = s).
  { unfold json_text. subst text. rewrite (strip_fenced _ _ _ Hws1 Hws2).
    by rewrite (replace_open_fence _ Hfence), (replace_close_fence _ Hfence). }
  split; [exact Htext | split; [by rewrite Htext |]].
  intros -> prompt subject_text run. subst run.
  assert (Hbody : greeting +:+ no_warnings +:+ signature = body) by (by vm_compute).
  rewrite process_response_ok, Htext, Hparse, build_report_falsy; [| reflexivity].
  rewrite Hbody. change no_warnings with sentence.
  split; [| split; [| split; [by vm_compute |]]].
  - unfold events.
    destruct (send_or_review w secrets i _ _) as [t' [[] | e]]; cbn [fst]; by eexists.
  - pose proof (send_or_review_calls (replace "SUBJECT: " EmptyString subject_text) body)
      as Hcalls.
    unfold events in Hcalls |- *.
    destruct (send_or_review w secrets i _ _) as [t' [[] | e]]; cbn [fst] in Hcalls |- *.
    + unfold prompt_reveal. split_events. cbn. rewrite app_nil_r.
      eapply Forall_impl; [exact Hcalls |]. by intros c ->.
    + unfold handled. destruct (is_JSONDecodeError e); split_events; cbn; rewrite app_nil_r;
        (eapply Forall_impl; [exact Hcalls |]); by intros c ->.
  - intros sender Hsender Hrecipient Hticked.
    destruct (send_or_review_sent w secrets i sender
                (replace "SUBJECT: " EmptyString subject_text) body Hsender)
      as (t' & -> & Hcalls & _).
    assert (Hauto : auto_send i = true).
    { unfold auto_send. rewrite Hticked.
      by destruct (String.eqb_spec (recipient_email i) EmptyString). }
    rewrite Hauto in Hcalls. cbn [orb] in Hcalls.
    unfold events. cbn [fst]. unfold prompt_reveal. split_events.
    rewrite Hcalls. cbn. reflexivity.
Qed.

End ClickClaims.

(** *** The uploaded file *)

Section Upload.

Context {dataframe scalar : Type}.
Variable w : world dataframe scalar.
Variable secrets : gmap string string.
Variable i : inputs.

Lemma events_try_except {A} (m : M dataframe A)
    (clauses : list ((exn → bool) * (exn → M dataframe A))) :
  ∃ rest, events (try_except m clauses) = events m ++ rest.
Proof.
  unfold events, try_except. destruct m as [t [a | e]]; cbn.
  - exists []. by rewrite app_nil_r.
  - destruct (List.find _ clauses) as [c |]; [| exists []; by rewrite app_nil_r].
    destruct (snd c e) as [t' r]. by exists t'.
Qed.

Lemma sku_charts_complete (df : dataframe) (skus : list scalar)
    (charts : list (scalar * dataframe)) :
  Forall2 (charts_as w df) skus charts →
  sku_charts w df skus = (flat_map (sku_chart w) charts, Ok tt).
Proof.
  induction 1 as [| sku [sku' sku_data] skus charts (Hsku & Hrows & Hchart) _ IH];
    [reflexivity |].
  cbn [fst snd] in *. subst sku'. cbn [sku_charts flat_map].
  rewrite Hrows. run. rewrite Hchart. run. by rewrite IH.
Qed.

(** C8, as the code has it: a file that pandas parses is shown in the
    expander "Click to see Data Preview", with its dates converted when they
    can be and after a warning when they cannot, and the expander "Click to
    see All Sales Charts" is opened after it; it holds one chart per SKU, in
    order, when the SKUs can be listed and the rows of each can be charted,
    and when the SKUs cannot be listed it is closed empty and the run of
    the file ends with "Error reading CSV file" and the text of that
    exception.  A file on which [read_csv] raises gives the message "Error
    reading CSV file" with the text of the exception and nothing else: no
    preview, no prompt, no call of the model. *)
Theorem csv_preview_or_error (file : string) :
  uploaded_file i = Some file →
  let run := on_upload w secrets i in
  let charts_expander := Expander "Click to see All Sales Charts 📊" in
  (∀ df, read_csv w file = Ok df →
     let shown :=
       date_warning w df
       ++ [Enter (Expander "Click to see Data Preview");
           StDataframe (dated w df);
           Leave (Expander "Click to see Data Preview")] in
     (∃ rest, events run = shown ++ Enter charts_expander :: rest)
     ∧ (∀ skus charts,
          unique_skus w (dated w df) = Ok skus →
          Forall2 (charts_as w (dated w df)) skus charts →
          ∃ rest,
            events run
            = shown ++ Enter charts_expander :: flat_map (sku_chart w) charts
              ++ Leave charts_expander :: rest)
     ∧ (∀ e,
          unique_skus w (dated w df) = Raise e →
          run = (shown ++ [Enter charts_expander; Leave charts_expander;
                           StError ("Error reading CSV file: " +:+ exn_text e)],
                 Ok tt)))
  ∧ (∀ e, read_csv w file = Raise e →
       run = ([StError ("Error reading CSV file: " +:+ exn_text e)], Ok tt)
       ∧ model_calls (events run) = []
       ∧ (∀ df, StDataframe df ∉ events run)).
Proof.
  intros Hfile run charts_expander. subst run charts_expander.
  change (Expander "Click to see Data Preview") with (Expander preview_label).
  change (Expander "Click to see All Sales Charts 📊") with (Expander charts_label).
  split.
  - intros df Hread shown. subst shown. split; [| split].
    3: { intros e Hskus. unfold on_upload. rewrite Hfile, Hread. run.
         unfold date_warning, dated in *.
         destruct (to_datetime w df) as [df' | e']; cbn; rewrite Hskus; reflexivity. }
    all: unfold on_upload; rewrite Hfile, Hread.
    all: match goal with
         | |- context [try_except ?m ?cl] => destruct (events_try_except m cl) as [tail ->]
         end.
    all: rewrite events_bind; cbn [lift events outcome fst snd app]; rewrite events_bind.
    all: assert (Hdates :
           try_except (lift (to_datetime w df))
             [(is_Exception, fun e =>
                 emit (StWarning ("Could not parse dates. Charts may be incorrect. Error: "
                                  +:+ exn_text e)) ;;
                 ret df)]
           = (date_warning w df, Ok (dated w df)))
           by (unfold date_warning, dated; by destruct (to_datetime w df)).
    all: rewrite Hdates; cbn [events outcome fst snd]; rewrite events_bind.
    all: change (events (within (Expander preview_label) (emit (StDataframe (dated w df)))))
           with [Enter (Expander preview_label); StDataframe (dated w df);
                 Leave (Expander preview_label)].
    all: change (outcome (within (Expander preview_label) (emit (StDataframe (dated w df)))))
           with (@Ok unit tt).
    all: cbn match; rewrite events_bind.
    + match goal with
      | |- context [events (within ?b ?m)] =>
          assert (∃ inner, events (within b m) = Enter b :: inner) as [inner ->]
            by (unfold within, events; destruct m; by eexists)
      end.
      eexists. rewrite <- !app_assoc. reflexivity.
    + intros skus charts Hskus Hcharts. rewrite Hskus.
      change (lift (Ok skus)) with (@ret dataframe _ skus).
      assert (Hinner :
        within (Expander charts_label)
          (unique_skus <- ret skus ;; sku_charts w (dated w df) unique_skus)
        = (Enter (Expander charts_label) :: flat_map (sku_chart w) charts
             ++ [Leave (Expander charts_label)], Ok tt)).
      { unfold within, bind, ret. rewrite (sku_charts_complete _ _ _ Hcharts). reflexivity. }
      rewrite Hinner. cbn [events outcome fst snd].
      eexists. rewrite <- !app_assoc. cbn [app]. rewrite <- !app_assoc. reflexivity.
  - intros e Hread. unfold on_upload. rewrite Hfile, Hread.
    assert (Hrun :
      try_except
        (df <- lift (Raise e) ;;
         df <- try_except (lift (to_datetime w df))
                 [(is_Exception, fun e =>
                     emit (StWarning ("Could not parse dates. Charts may be incorrect. Error: "
                                      +:+ exn_text e)) ;;
                     ret df)] ;;
         within (Expander preview_label) (emit (StDataframe df)) ;;
         within (Expander charts_label)
           (unique_skus <- lift (unique_skus w df) ;;
            sku_charts w df unique_skus) ;;
         data_as_text <- lift (to_string w df) ;;
         emit (Button "Analyze Sales Velocity") ;;
         if analyze_button i then analyze w secrets i df data_as_text else ret tt)
        [(is_Exception, fun e =>
            emit (StError ("Error reading CSV file: " +:+ exn_text e)))]
      = ([StError ("Error reading CSV file: " +:+ exn_text e)], Ok tt)) by reflexivity.
    rewrite Hrun. split; [reflexivity | split; [reflexivity |]].
    intros df Hin. unfold events in Hin. cbn in Hin.
    apply list_elem_of_singleton in Hin. discriminate.
Qed.

End Upload.

(** *** The prompt *)

Section Substrings.

Lemma startswith_refl (m : string) : startswith m m = true.
Proof. induction m as [| a m IH]; [reflexivity |]. cbn. by rewrite Ascii.eqb_refl. Qed.

Lemma contains_here (m s : string) : startswith m s = true → contains m s = true.
Proof. intros H. destruct s; cbn; by rewrite H. Qed.

Lemma contains_app_l (m a b : string) :
  contains m a = true → contains m (a +:+ b) = true.
Proof.
  induction a as [| x a IH].
  - cbn. rewrite orb_false_r. intros H. rewrite append_nil_l.
    destruct m; [by destruct b | discriminate].
  - rewrite append_cons, !contains_cons. intros [H | H]%orb_true_iff.
    + apply (startswith_app _ _ b) in H. rewrite append_cons in H. by rewrite H.
    + rewrite (IH H). apply orb_true_r.
Qed.

Lemma contains_app_r (m a b : string) :
  contains m b = true → contains m (a +:+ b) = true.
Proof.
  intros H. induction a as [| x a IH]; [by rewrite append_nil_l |].
  rewrite append_cons, contains_cons, IH. apply orb_true_r.
Qed.

Lemma contains_refl (m : string) : contains m m = true.
Proof. apply contains_here, startswith_refl. Qed.

(** A text that holds [m] holds the first character of [m]. *)
Lemma contains_first (a : ascii) (m s : string) :
  contains (String a m) s = true → occurs a s = true.
Proof.
  induction s as [| x s IH]; [discriminate |].
  rewrite contains_cons. cbn [startswith occurs].
  destruct (Ascii.eqb a x); [done |]. cbn. exact IH.
Qed.

(** A character that [m] does not hold stops every match of [m]. *)
Lemma startswith_barrier (m s b : string) (c : ascii) :
  occurs c m = false →
  startswith m (s +:+ String c b) = startswith m s.
Proof.
  revert s. induction m as [| a m IH]; intros s Hc; [by destruct s |].
  cbn [occurs] in Hc. apply orb_false_elim in Hc as [Hca Hcm].
  destruct s as [| x s].
  - rewrite append_nil_l. cbn. rewrite Ascii.eqb_sym in Hca. by rewrite Hca.
  - rewrite append_cons. cbn. destruct (Ascii.eqb a x); [by apply IH | reflexivity].
Qed.

Lemma contains_barrier (m d b : string) (c : ascii) :
  occurs c m = false →
  contains m (d +:+ String c b) = contains m d || contains m (String c b).
Proof.
  intros Hc. induction d as [| x d IH].
  - rewrite append_nil_l. destruct m as [| a m]; [reflexivity |]. reflexivity.
  - rewrite append_cons, !contains_cons, IH, <- append_cons.
    rewrite (startswith_barrier _ _ _ _ Hc). by rewrite orb_assoc.
Qed.

(** [str(n)] is made of digits and, maybe, a minus sign. *)
Lemma occurs_uint (c : ascii) (d : Decimal.uint) :
  occurs c (NilEmpty.string_of_uint d) = true → occurs c "0123456789" = true.
Proof.
  induction d as [| d IH | d IH | d IH | d IH | d IH | d IH | d IH | d IH | d IH | d IH];
    cbn [NilEmpty.string_of_uint occurs]; [discriminate | ..];
    (intros [H | H]%orb_true_iff; [| by apply IH]);
    apply Ascii.eqb_eq in H; by subst c.
Qed.

Lemma occurs_str_of_int (c : ascii) (z : Z) :
  occurs c (str_of_int z) = true → occurs c "-0123456789" = true.
Proof.
  unfold str_of_int. intros H.
  assert (Huint : ∀ d, occurs c (NilZero.string_of_uint d) = true →
                       occurs c "0123456789" = true).
  { intros d. unfold NilZero.string_of_uint.
    destruct d; try apply occurs_uint.
    cbn. rewrite orb_false_r. intros Hc%Ascii.eqb_eq. by subst c. }
  change (occurs c "-0123456789") with (Ascii.eqb c "-" || occurs c "0123456789").
  destruct (Z.to_int z) as [d | d]; cbn [NilZero.string_of_int occurs] in H.
  - apply Huint in H. rewrite H. apply orb_true_r.
  - apply orb_true_iff in H as [H | H].
    + by rewrite H.
    + apply Huint in H. rewrite H. apply orb_true_r.
Qed.

(** A text that starts with a letter is not in [str(n)]. *)
Lemma not_in_str_of_int (a : ascii) (m : string) (z : Z) :
  occurs a "-0123456789" = false →
  contains (String a m) (str_of_int z) = false.
Proof.
  intros Ha. destruct (contains (String a m) (str_of_int z)) eqn:H; [| reflexivity].
  apply contains_first, occurs_str_of_int in H. congruence.
Qed.

Lemma contains_middle (m h pre post : string) :
  h = pre +:+ m +:+ post → contains m h = true.
Proof. intros ->. apply contains_app_r, contains_app_l, contains_refl. Qed.

Lemma contains_barrier_head (m d b : string) :
  barrier m b = true →
  contains m (d +:+ b) = contains m d || contains m b.
Proof.
  destruct b as [| c b]; [discriminate |]. cbn [barrier].
  intros Hc%negb_true_iff. by apply contains_barrier.
Qed.

End Substrings.

Section Prompt.

Variables data_as_text business_context : string.
Variables alert_threshold slump_threshold : Z.

Lemma prompt_holds_data (warn_on_slump : bool) :
  contains data_as_text
    (prompt data_as_text business_context alert_threshold warn_on_slump slump_threshold)
  = true.
Proof.
  unfold prompt, prompt_template.
  apply contains_app_r, contains_app_l, contains_refl.
Qed.

Lemma prompt_holds_context (warn_on_slump : bool) :
  contains business_context
    (prompt data_as_text business_context alert_threshold warn_on_slump slump_threshold)
  = true.
Proof.
  unfold prompt, prompt_template.
  do 3 apply contains_app_r. apply contains_app_l, contains_refl.
Qed.

Lemma prompt_holds_spike_task (warn_on_slump : bool) :
  contains (spike_task alert_threshold)
    (prompt data_as_text business_context alert_threshold warn_on_slump slump_threshold)
  = true.
Proof.
  unfold prompt, prompt_template, spike_task.
  set (before := "**Task 2 (Spikes):** Check for sales >").
  set (after := "% *above* the 7-day average.").
  assert (Hbefore : ∃ pre, prompt_after_context = pre +:+ before).
  { exists (substring 0 (String.length prompt_after_context - String.length before)
              prompt_after_context). by vm_compute. }
  assert (Hafter : ∃ post, prompt_after_threshold = after +:+ post).
  { exists (substring (String.length after)
              (String.length prompt_after_threshold - String.length after)
              prompt_after_threshold). by vm_compute. }
  destruct Hbefore as [pre ->]. destruct Hafter as [post ->].
  apply (contains_middle _ _
           (prompt_head +:+ data_as_text +:+ prompt_after_data +:+ business_context +:+ pre)
           (post +:+ slump_instructions warn_on_slump slump_threshold +:+ prompt_tail)).
  by rewrite !append_assoc.
Qed.

Lemma slump_instructions_task :
  ∃ indent, slump_instructions true slump_threshold
            = indent +:+ slump_task slump_threshold +:+ indent.
Proof.
  unfold slump_instructions, slump_task.
  set (n := str_of_int slump_threshold).
  exists (substring 0 17 (slump_instructions true 0)).
  change (substring 0 17 (slump_instructions true 0))
    with (String "010"%char "                ").
  rewrite !append_assoc. reflexivity.
Qed.

Lemma prompt_holds_slump_task :
  contains (slump_task slump_threshold)
    (prompt data_as_text business_context alert_threshold true slump_threshold)
  = true.
Proof.
  unfold prompt, prompt_template.
  destruct slump_instructions_task as [indent ->].
  apply (contains_middle _ _
           (prompt_head +:+ data_as_text +:+ prompt_after_data +:+ business_context
            +:+ prompt_after_context +:+ str_of_int alert_threshold
            +:+ prompt_after_threshold +:+ indent)
           (indent +:+ prompt_tail)).
  by rewrite !append_assoc.
Qed.

(** The literal segments of the prompt do not hold "Task 3", and none of
    them ends with a beginning of it. *)
Lemma task3_after_head (x : string) :
  contains "Task 3" (prompt_head +:+ x) = contains "Task 3" x.
Proof. by vm_compute. Qed.

Lemma task3_after_data (x : string) :
  contains "Task 3" (prompt_after_data +:+ x) = contains "Task 3" x.
Proof. by vm_compute. Qed.

Lemma task3_after_context (x : string) :
  contains "Task 3" (prompt_after_context +:+ x) = contains "Task 3" x.
Proof. by vm_compute. Qed.

Lemma task3_after_threshold :
  contains "Task 3" (prompt_after_threshold +:+ EmptyString +:+ prompt_tail) = false.
Proof. by vm_compute. Qed.

Lemma task3_without_slump :
  contains "Task 3"
    (prompt data_as_text business_context alert_threshold false slump_threshold)
  = contains "Task 3" data_as_text || contains "Task 3" business_context.
Proof.
  unfold prompt, prompt_template, slump_instructions.
  rewrite task3_after_head.
  rewrite contains_barrier_head by (by vm_compute).
  rewrite task3_after_data.
  rewrite contains_barrier_head by (by vm_compute).
  rewrite task3_after_context.
  rewrite contains_barrier_head by (by vm_compute).
  rewrite not_in_str_of_int by (by vm_compute).
  rewrite task3_after_threshold.
  by rewrite !orb_false_r.
Qed.

Lemma subject_prefix_removed (x : string) :
  replace "SUBJECT: " EmptyString
    ("SUBJECT: 🚨 URGENT: Demand Spike Warning (Threshold: " +:+ x)
  = replace "SUBJECT: " EmptyString
      ("🚨 URGENT: Demand Spike Warning (Threshold: " +:+ x).
Proof. by vm_compute. Qed.

Lemma subject_not_in_rest (x : string) :
  contains "SUBJECT: " ("🚨 URGENT: Demand Spike Warning (Threshold: " +:+ x)
  = contains "SUBJECT: " x.
Proof. by vm_compute. Qed.

Lemma subject_clean_spikes :
  replace "SUBJECT: " EmptyString (subject_text alert_threshold false)
  = "🚨 URGENT: Demand Spike Warning (Threshold: " +:+ str_of_int alert_threshold +:+ "%)".
Proof.
  unfold subject_text. rewrite subject_prefix_removed.
  apply replace_absent. rewrite subject_not_in_rest.
  rewrite contains_barrier_head by (by vm_compute).
  by rewrite not_in_str_of_int by (by vm_compute).
Qed.

Lemma subject_clean_both :
  replace "SUBJECT: " EmptyString (subject_text alert_threshold true)
  = "📈📉 Sales Velocity Alert (Spikes & Slumps Detected)".
Proof. by vm_compute. Qed.

End Prompt.

Section PromptClaim.

Context {dataframe scalar : Type}.
Variable w : world dataframe scalar.
Variable secrets : gmap string string.
Variable i : inputs.
Variable df : dataframe.
Variable data_as_text : string.

Lemma analyze_sends_prompt :
  ∃ rest,
    events (analyze w secrets i df data_as_text)
    = Enter (Spinner (spinner_text (alert_threshold i) (warn_on_slump i) (slump_threshold i)))
      :: GenerateContent
           (prompt data_as_text (business_context i)
              (alert_threshold i) (warn_on_slump i) (slump_threshold i))
      :: rest.
Proof.
  unfold analyze.
  match goal with
  | |- context [within ?b (try_except ?m ?cl)] =>
      destruct (events_try_except m cl) as [tail Htail];
      assert (Hm : ∃ rest, events m = GenerateContent
           (prompt data_as_text (business_context i)
              (alert_threshold i) (warn_on_slump i) (slump_threshold i)) :: rest)
        by (rewrite events_bind; by eexists);
      destruct Hm as [rest Hm]; rewrite Hm in Htail;
      unfold within, events in Htail |- *;
      destruct (try_except m cl) as [t r]
  end.
  cbn [fst] in Htail |- *. subst t. by eexists.
Qed.

(** C1, as the code has it: the prompt the click sends to the model is a
    function of the text of the CSV, the business context, the spike
    threshold, the slump box and the slump threshold; it holds that text,
    that context and the spike task with the spike threshold.  With the
    slump box ticked it holds the slump task, Task 3, with the threshold of
    the slump slider, and the spinner text and the subject are the ones for
    spikes and slumps.  With the box unticked the template adds no slump
    task: "Task 3" is in the prompt exactly when it is in the text of the
    CSV or in the business context, and the spinner text and the subject
    are the ones for spikes alone. *)
Theorem prompt_assembly :
  let sent :=
    prompt data_as_text (business_context i)
      (alert_threshold i) (warn_on_slump i) (slump_threshold i) in
  let spinner := spinner_text (alert_threshold i) (warn_on_slump i) (slump_threshold i) in
  let subject :=
    replace "SUBJECT: " EmptyString (subject_text (alert_threshold i) (warn_on_slump i)) in
  (∃ rest,
     events (analyze w secrets i df data_as_text)
     = Enter (Spinner spinner) :: GenerateContent sent :: rest)
  ∧ contains data_as_text sent = true
  ∧ contains (business_context i) sent = true
  ∧ contains (spike_task (alert_slider i)) sent = true
  ∧ (slump_checkbox i = true →
     contains (slump_task (slump_slider i)) sent = true
     ∧ spinner = "AI is analyzing for spikes (>" +:+ str_of_int (alert_slider i)
                 +:+ "%) and slumps (<" +:+ str_of_int (slump_slider i) +:+ "%)..."
     ∧ subject = "📈📉 Sales Velocity Alert (Spikes & Slumps Detected)")
  ∧ (slump_checkbox i = false →
     contains "Task 3" sent
     = contains "Task 3" data_as_text || contains "Task 3" (business_context i)
     ∧ spinner = "AI is analyzing for spikes > " +:+ str_of_int (alert_slider i) +:+ "%..."
     ∧ subject = "🚨 URGENT: Demand Spike Warning (Threshold: "
                 +:+ str_of_int (alert_slider i) +:+ "%)").
Proof.
  intros sent spinner subject. subst sent spinner subject.
  unfold alert_threshold, slump_threshold, warn_on_slump.
  split; [apply analyze_sends_prompt |].
  split; [apply prompt_holds_data |].
  split; [apply prompt_holds_context |].
  split; [apply prompt_holds_spike_task |].
  split; intros ->.
  - split; [apply prompt_holds_slump_task |]. split; [reflexivity |].
    apply subject_clean_both.
  - split; [apply task3_without_slump |]. split; [reflexivity |].
    apply subject_clean_spikes.
Qed.

End PromptClaim.

(** *** Sending is opt-in *)

Section OptIn.

Context {dataframe scalar : Type}.
Variable w : world dataframe scalar.
Variable secrets : gmap string string.
Variable i : inputs.
Variable df : dataframe.

(** Auto-send is on exactly when there is a recipient and the box is
    ticked. *)
Lemma auto_send_ticked :
  auto_send i = true ↔ recipient_email i ≠ EmptyString ∧ auto_send_checkbox i = true.
Proof.
  unfold auto_send. destruct (String.eqb_spec (recipient_email i) EmptyString) as [-> | Hne].
  - split; [discriminate | by intros [? _]].
  - split; [by intros -> | by intros [_ ->]].
Qed.

(** C4, as the code has it: when the reply is parsed, the report is
    rendered to its end (as it always is for an empty list) and the sender
    is in the secrets, the click calls [send_email] at once, with no review
    button, exactly when the recipient field is not empty and the auto-send
    box is ticked; with no recipient or the box unticked it shows the
    button "Click Here to Send the Email Alert" instead, calls [send_email]
    only if that button answers [True], and otherwise makes no e-mail step
    at all.  The call has the recipient of the form, the subject without
    its prefix and the body built with the report, whether or not the list
    of alerts is empty; for an empty list that body is the greeting, the
    sentence that there is no warning and the signature. *)
Theorem emailing_is_opt_in (data_as_text text : string) (alerts : json)
    (t : list (event dataframe)) (email_body_text sender : string) :
  let prompt :=
    prompt data_as_text (business_context i)
      (alert_threshold i) (warn_on_slump i) (slump_threshold i) in
  let subject :=
    if slump_checkbox i
    then "📈📉 Sales Velocity Alert (Spikes & Slumps Detected)"
    else "🚨 URGENT: Demand Spike Warning (Threshold: "
         +:+ str_of_int (alert_slider i) +:+ "%)" in
  let call := (recipient_email i, subject, email_body_text) in
  generate_content w prompt = Ok (Ok text) →
  json_loads w (json_text text) = Ok alerts →
  build_report w df (alert_threshold i) (slump_threshold i) alerts
  = (t, Ok email_body_text) →
  secrets !! "SENDER_EMAIL" = Some sender →
  let run := analyze w secrets i df data_as_text in
  (recipient_email i ≠ EmptyString → auto_send_checkbox i = true →
   send_email_calls (events run) = [call] ∧ buttons (events run) = [])
  ∧ (recipient_email i = EmptyString ∨ auto_send_checkbox i = false →
     buttons (events run) = ["Click Here to Send the Email Alert"]
     ∧ send_email_calls (events run) = (if send_button i then [call] else [])
     ∧ (send_button i = false → email_events (events run) = []))
  ∧ (send_email_calls (events run) = [call] ∧ buttons (events run) = []
     ↔ recipient_email i ≠ EmptyString ∧ auto_send_checkbox i = true)
  ∧ (Py.truthy alerts = false →
     email_body_text
     = "Hi Team," +:+ nl +:+ nl +:+ "My analysis is complete. Here are the findings:"
       +:+ nl +:+ nl
       +:+ "All SKUs are operating within normal sales velocity. No warnings to report."
       +:+ nl +:+ nl +:+ "Best," +:+ nl +:+ "Sales Velocity Agent").
Proof.
  intros prompt subject call Hreply Hparse Hreport Hsender run. subst run.
  assert (Hsubject :
    replace "SUBJECT: " EmptyString (subject_text (alert_threshold i) (warn_on_slump i))
    = subject).
  { subst subject. unfold warn_on_slump, alert_threshold.
    destruct (slump_checkbox i); [apply subject_clean_both | apply subject_clean_spikes]. }
  rewrite (analyze_replied w secrets i df data_as_text text Hreply).
  fold prompt. rewrite process_response_ok, Hparse, Hreport, Hsubject.
  destruct (send_or_review_sent w secrets i sender subject email_body_text Hsender)
    as (t' & -> & Hcalls & Hbuttons & Hmodel & Hquiet).
  fold call in Hcalls.
  pose proof (build_report_quiet w df (alert_threshold i) (slump_threshold i) alerts)
    as Hsilent.
  unfold only, events in Hsilent. rewrite Hreport in Hsilent. cbn [fst] in Hsilent.
  apply report_events_silent in Hsilent as (Ht1 & Ht2 & Ht3 & Ht4).
  unfold events. cbn [fst]. unfold prompt_reveal.
  assert (Hsent :
    send_email_calls
      (Enter (Spinner (spinner_text (alert_threshold i) (warn_on_slump i) (slump_threshold i)))
       :: GenerateContent prompt
       :: StSuccess "Analysis Complete!"
       :: Markdown "### 🤖 AI-Generated Visual Report"
       :: (t ++ t'
           ++ [Markdown "---";
               Enter (Expander "Click here to see the *exact* prompt sent to the AI (The 'Vibe Code')");
               StCode prompt "text";
               Leave (Expander "Click here to see the *exact* prompt sent to the AI (The 'Vibe Code')")])
          ++ [Leave (Spinner (spinner_text (alert_threshold i) (warn_on_slump i)
                                (slump_threshold i)))])
    = (if auto_send i || send_button i then [call] else [])).
  { split_events. rewrite Ht1, Hcalls. cbn. by rewrite !app_nil_r. }
  assert (Hshown :
    buttons
      (Enter (Spinner (spinner_text (alert_threshold i) (warn_on_slump i) (slump_threshold i)))
       :: GenerateContent prompt
       :: StSuccess "Analysis Complete!"
       :: Markdown "### 🤖 AI-Generated Visual Report"
       :: (t ++ t'
           ++ [Markdown "---";
               Enter (Expander "Click here to see the *exact* prompt sent to the AI (The 'Vibe Code')");
               StCode prompt "text";
               Leave (Expander "Click here to see the *exact* prompt sent to the AI (The 'Vibe Code')")])
          ++ [Leave (Spinner (spinner_text (alert_threshold i) (warn_on_slump i)
                                (slump_threshold i)))])
    = (if auto_send i then [] else ["Click Here to Send the Email Alert"])).
  { split_events. rewrite Ht3, Hbuttons. cbn. by rewrite !app_nil_r. }
  rewrite Hsent, Hshown.
  split; [| split; [| split]].
  - intros Hrecipient Hticked.
    rewrite (proj2 auto_send_ticked (conj Hrecipient Hticked)). done.
  - intros Hoff.
    assert (Hauto : auto_send i = false).
    { destruct (auto_send i) eqn:Hauto; [| reflexivity].
      apply auto_send_ticked in Hauto as [Hrecipient Hticked].
      destruct Hoff as [Hoff | Hoff]; [done | congruence]. }
    rewrite Hauto. cbn [orb]. split; [reflexivity | split; [reflexivity |]].
    intros Hbutton. split_events. by rewrite Ht4, (Hquiet Hauto Hbutton).
  - rewrite <- auto_send_ticked. destruct (auto_send i).
    + done.
    + split; [| discriminate]. intros [_ Hnone]. discriminate Hnone.
  - intros Hfalsy. rewrite build_report_falsy in Hreport; [| exact Hfalsy].
    injection Hreport as _ <-. by vm_compute.
Qed.

End OptIn.

(** *** The whole script *)

Section WholeScript.

Context {dataframe scalar : Type}.
Variable w : world dataframe scalar.
Variable i : inputs.

(** Without a secrets file, without the key of the model, or when the model
    cannot be configured, the run stops after one error: no widget of the
    form is shown. *)
Lemma script_stops_early :
  (secrets_file w = None ∨
   (∃ secrets, secrets_file w = Some secrets ∧ secrets !! "GEMINI_API_KEY" = None) ∨
   (∃ secrets key e, secrets_file w = Some secrets
                     ∧ secrets !! "GEMINI_API_KEY" = Some key
                     ∧ configure w key = Some e)) →
  ∃ text rest,
    script w i = (page_header ++ StError text :: rest, Ok tt)
    ∧ model_calls rest = [] ∧ send_email_calls rest = [] ∧ buttons rest = [].
Proof.
  unfold script.
  intros [-> | [(secrets & -> & ->) | (secrets & key & e & -> & -> & ->)]];
    by repeat eexists.
Qed.

(** Past these three checks, the run is the header, the widgets of the form and the
    block of the uploaded file. *)
Lemma script_reaches_the_form (secrets : gmap string string) (key : string) :
  secrets_file w = Some secrets →
  secrets !! "GEMINI_API_KEY" = Some key →
  configure w key = None →
  script w i
  = (page_header ++ form_widgets i ++ events (on_upload w secrets i),
     outcome (on_upload w secrets i)).
Proof.
  intros Hfile Hkey Hconfigure. unfold script, form, form_widgets.
  rewrite Hfile, Hkey, Hconfigure. unfold events, outcome.
  destruct (on_upload w secrets i) as [t r].
  destruct (warn_on_slump i), (String.eqb (recipient_email i) EmptyString); reflexivity.
Qed.

End WholeScript.

(** ** The claims on concrete runs *)

(** C1 on a form with the slump box ticked: the prompt holds the slump task
    with the threshold of the slider. *)
Lemma prompt_assembly_demo :
  contains (slump_task 25)
    (prompt Demo.csv "Festive offer on cold drinks" 25 true 25) = true.
Proof.
  pose proof (prompt_assembly (Demo.world_of (Demo.reply "[]") None) Demo.secrets
                (Demo.form "Festive offer on cold drinks" true false true false)
                Demo.csv Demo.csv) as (_ & _ & _ & _ & Hslump & _).
  exact (proj1 (Hslump eq_refl)).
Defined.

(** C1 as the specification words it fails when the business context is the
    text of the slump task: the box is not ticked and the prompt holds the
    slump task, with the slump threshold of the run. *)
Lemma slump_task_without_the_box :
  let i := Demo.form Demo.injected_context false false true false in
  slump_checkbox i = false
  ∧ contains (slump_task (slump_threshold i))
      (prompt Demo.csv (business_context i)
         (alert_threshold i) (warn_on_slump i) (slump_threshold i))
    = true.
Proof. split; by vm_compute. Qed.

(** C2 on a reply whose document is [[]], with a recipient and the
    auto-send box ticked: the text is parsed as the empty list, the report
    is the sentence that nothing is to report, and the e-mail sent says the
    same. *)
Lemma fenced_reply_is_parsed_demo :
  let text := Demo.reply "[]" in
  let w := Demo.world_of text None in
  let i := Demo.form EmptyString false true true false in
  let run :=
    process_response w Demo.secrets i Demo.csv
      (prompt Demo.csv EmptyString 25 false 25) (subject_text 25 false) (Ok text) in
  json_loads w (json_text text) = Ok (JArr [])
  ∧ (∃ rest,
       events run
       = Markdown "All SKUs are operating within normal sales velocity. No warnings to report."
         :: Markdown "---" :: rest)
  ∧ send_email_calls (events run)
    = [("ops@example.com", "🚨 URGENT: Demand Spike Warning (Threshold: 25%)",
        Demo.no_warnings_email)].
Proof.
  intros text w i run.
  destruct (fenced_reply_is_parsed w Demo.secrets i Demo.csv
              EmptyString nl (nl +:+ "[]" +:+ nl) (JArr []))
    as (_ & Hparse & Hempty).
  - apply whitespace_nil.
  - apply whitespace_1; [reflexivity | apply whitespace_nil].
  - by vm_compute.
  - by vm_compute.
  - destruct (Hempty eq_refl (prompt Demo.csv EmptyString 25 false 25) (subject_text 25 false))
      as (Hreport & _ & _ & Hsent).
    split; [exact Hparse | split; [exact Hreport |]].
    etransitivity.
    + apply (Hsent "agent@example.com"); [reflexivity | discriminate | reflexivity].
    + by vm_compute.
Defined.

(** C3 on a reply that is not JSON. *)
Lemma malformed_json_is_surfaced_demo :
  let w := Demo.world_of "I could not read the data." None in
  let i := Demo.form EmptyString false true true false in
  email_events (events (analyze w Demo.secrets i Demo.csv Demo.csv)) = []
  ∧ model_calls (events (analyze w Demo.secrets i Demo.csv Demo.csv))
    = [prompt Demo.csv EmptyString 25 false 25].
Proof.
  intros w i.
  destruct (malformed_json_is_surfaced w Demo.secrets i Demo.csv Demo.csv
              "I could not read the data." Demo.not_json)
    as (_ & _ & Hemail & Hmodel).
  - reflexivity.
  - by vm_compute.
  - reflexivity.
  - split; [exact Hemail | exact Hmodel].
Defined.

(** C4 on a list of one alert.  With the box ticked [send_email] is called
    at once and no button is shown; with the box unticked the review button
    is shown and, as long as it is not clicked, no e-mail step is made.  On
    the empty list, with the box ticked, [send_email] is called as well. *)
Lemma emailing_is_opt_in_demo :
  let text := Demo.reply ("[" +:+ Demo.latte_text +:+ "]") in
  let w := Demo.world_of text None in
  let ticked := Demo.form EmptyString false true true false in
  let unticked := Demo.form EmptyString false false true false in
  (send_email_calls (events (analyze w Demo.secrets ticked Demo.csv Demo.csv))
   = [("ops@example.com", "🚨 URGENT: Demand Spike Warning (Threshold: 25%)",
       Demo.latte_email)]
   ∧ buttons (events (analyze w Demo.secrets ticked Demo.csv Demo.csv)) = [])
  ∧ (buttons (events (analyze w Demo.secrets unticked Demo.csv Demo.csv))
     = ["Click Here to Send the Email Alert"]
     ∧ send_email_calls (events (analyze w Demo.secrets unticked Demo.csv Demo.csv)) = []
     ∧ email_events (events (analyze w Demo.secrets unticked Demo.csv Demo.csv)) = [])
  ∧ send_email_calls
      (events (analyze (Demo.world_of (Demo.reply "[]") None) Demo.secrets ticked
                 Demo.csv Demo.csv))
    = [("ops@example.com", "🚨 URGENT: Demand Spike Warning (Threshold: 25%)",
        Demo.no_warnings_email)].
Proof.
  intros text w ticked unticked. split; [| split].
  - destruct (emailing_is_opt_in w Demo.secrets ticked Demo.csv Demo.csv text
                (JArr [Demo.latte])
                (card w 25 25 Demo.latte_fields Demo.csv ++ [Markdown "---"])
                Demo.latte_email "agent@example.com")
      as (Hon & _).
    + reflexivity.
    + by vm_compute.
    + by vm_compute.
    + reflexivity.
    + destruct Hon as [Hcalls Hbuttons]; [discriminate | reflexivity |].
      split; [| exact Hbuttons].
      etransitivity; [exact Hcalls | by vm_compute].
  - destruct (emailing_is_opt_in w Demo.secrets unticked Demo.csv Demo.csv text
                (JArr [Demo.latte])
                (card w 25 25 Demo.latte_fields Demo.csv ++ [Markdown "---"])
                Demo.latte_email "agent@example.com")
      as (_ & Hoff & _).
    + reflexivity.
    + by vm_compute.
    + by vm_compute.
    + reflexivity.
    + destruct Hoff as (Hbuttons & Hcalls & Hquiet); [by right |].
      split; [exact Hbuttons | split; [exact Hcalls | exact (Hquiet eq_refl)]].
  - destruct (emailing_is_opt_in (Demo.world_of (Demo.reply "[]") None) Demo.secrets ticked
                Demo.csv Demo.csv (Demo.reply "[]") (JArr [])
                [Markdown "All SKUs are operating within normal sales velocity. No warnings to report.";
                 Markdown "---"]
                Demo.no_warnings_email "agent@example.com")
      as (Hon & _).
    + reflexivity.
    + by vm_compute.
    + by vm_compute.
    + reflexivity.
    + destruct Hon as [Hcalls _]; [discriminate | reflexivity |].
      etransitivity; [exact Hcalls | by vm_compute].
Defined.

(** C4 as the specification words it fails when the reply parses and an
    alert lacks a key: auto-send is on, [json.loads] succeeds, and the click
    neither calls [send_email] nor shows the review button. *)
Lemma parsed_reply_without_email :
  let text := Demo.reply ("[" +:+ Demo.no_cause_text +:+ "]") in
  let w := Demo.world_of text None in
  let i := Demo.form EmptyString false true true false in
  auto_send i = true
  ∧ json_loads w (json_text text) = Ok (JArr [Demo.no_cause])
  ∧ send_email_calls (events (analyze w Demo.secrets i Demo.csv Demo.csv)) = []
  ∧ buttons (events (analyze w Demo.secrets i Demo.csv Demo.csv)) = []
  ∧ StError "Error while processing alerts: 'cause'"
    ∈ events (analyze w Demo.secrets i Demo.csv Demo.csv).
Proof.
  repeat split; try (by vm_compute).
  apply list_elem_of_In. vm_compute. do 11 right. by left.
Qed.

(** C5 on a list of one alert with its seven keys. *)
Lemma well_formed_alerts_render_cards_demo :
  let w := Demo.world_of (Demo.reply ("[" +:+ Demo.latte_text +:+ "]")) None in
  build_report w Demo.csv 25 25 (JArr [Demo.latte])
  = (card w 25 25 Demo.latte_fields Demo.csv ++ [Markdown "---"],
     Ok (greeting +:+ (email_block w 25 25 Demo.latte_fields +:+ EmptyString) +:+ signature)).
Proof.
  intros w.
  destruct (well_formed_alerts_render_cards w Demo.csv 25 25 [Demo.latte]
              [(Demo.latte_fields, Demo.csv)]) as [Hreport _].
  - discriminate.
  - constructor; [| constructor]. repeat split; reflexivity.
  - rewrite Hreport. cbn [cards flat_map email_blocks fst snd]. by rewrite app_nil_r.
Defined.

(** C5 as the specification words it fails when an alert before a
    well-formed one lacks a key: the second alert of the list has the seven
    keys, and the report stops in the first one, with no card for the
    second. *)
Lemma well_formed_alert_without_card :
  let w := Demo.world_of
             (Demo.reply ("[" +:+ Demo.cut_text +:+ ", " +:+ Demo.latte_text +:+ "]")) None in
  has_fields Demo.latte Demo.latte_fields
  ∧ json_loads w (json_text (Demo.reply
       ("[" +:+ Demo.cut_text +:+ ", " +:+ Demo.latte_text +:+ "]")))
    = Ok (JArr [Demo.cut; Demo.latte])
  ∧ build_report w Demo.csv 25 25 (JArr [Demo.cut; Demo.latte])
    = ([Markdown "---"; Markdown "### ⚠️ SPIKE WARNING (>25%)"],
       Raise (Exn KeyError "'sku'")).
Proof. repeat split; by vm_compute. Qed.

(** C6 on a login that the server rejects with its usual text. *)
Lemma send_email_surfaces_failures_demo :
  outcome (send_email (Demo.world_of (Demo.reply "[]") (Some Demo.bad_credentials))
             Demo.secrets "ops@example.com" "Subject" "Body")
  = Ok (false, "Email credentials failed.").
Proof.
  destruct (send_email_surfaces_failures
              (Demo.world_of (Demo.reply "[]") (Some Demo.bad_credentials))
              Demo.secrets "ops@example.com" "Subject" "Body") as (_ & _ & _ & Hlogin).
  apply (Hlogin "agent@example.com" "abcdabcdabcdabcd" Demo.bad_credentials);
    reflexivity.
Defined.

(** C6 as the specification words it fails when the server rejects the
    login with another text: the answer is the general one. *)
Lemma login_rejected_with_another_text :
  let w := Demo.world_of (Demo.reply "[]") (Some Demo.app_password_required) in
  smtp_login w "agent@example.com" "abcdabcdabcdabcd" = Some Demo.app_password_required
  ∧ outcome (send_email w Demo.secrets "ops@example.com" "Subject" "Body")
    = Ok (false,
          "Email failed to send: (534, b'5.7.9 Application-specific password required.')")
  ∧ outcome (send_email w Demo.secrets "ops@example.com" "Subject" "Body")
    ≠ Ok (false, "Email credentials failed.").
Proof. repeat split; by vm_compute. Qed.

(** C7 on a server that accepts every step. *)
Lemma send_email_success_demo :
  let w := Demo.world_of (Demo.reply "[]") None in
  events (send_email w Demo.secrets "ops@example.com" "Subject" "Body")
  = [CallSendEmail "ops@example.com" "Subject" "Body";
     SmtpConnect "smtp.gmail.com" 587;
     SmtpStartTLS;
     SmtpLogin "agent@example.com" "abcdabcdabcdabcd";
     SmtpSendMessage (Email "Body" "Subject" "agent@example.com" "ops@example.com");
     SmtpQuit].
Proof.
  intros w.
  destruct (send_email_success w Demo.secrets "ops@example.com" "Subject" "Body"
              "Email sent successfully!")
    as (sender & password & Hsender & Hpassword & _ & Hevents & _).
  - reflexivity.
  - injection Hsender as <-. injection Hpassword as <-. exact Hevents.
Defined.

(** C8 on a file that pandas reads, with its preview and the chart of its
    one SKU, and on a file that pandas does not read. *)
Lemma csv_preview_or_error_demo :
  let w := Demo.world_of (Demo.reply "[]") None in
  let broken := Demo.with_read_csv w (λ _, Raise Demo.parser_error) in
  let i := Demo.form EmptyString false false false false in
  (∃ rest,
     events (on_upload w Demo.secrets i)
     = [Enter (Expander "Click to see Data Preview");
        StDataframe Demo.csv;
        Leave (Expander "Click to see Data Preview");
        Enter (Expander "Click to see All Sales Charts 📊");
        Subheader "Sales Trend for: LATTE";
        LineChart Demo.csv;
        Leave (Expander "Click to see All Sales Charts 📊")] ++ rest)
  ∧ on_upload broken Demo.secrets i
    = ([StError "Error reading CSV file: Error tokenizing data. C error: Expected 4 fields in line 3, saw 5"],
       Ok tt).
Proof.
  intros w broken i. split.
  - destruct (csv_preview_or_error w Demo.secrets i Demo.csv eq_refl) as [Hread _].
    destruct (Hread Demo.csv eq_refl) as (_ & Hcharts & _).
    destruct (Hcharts ["LATTE"] [("LATTE", Demo.csv)] eq_refl) as [rest Hrest].
    + constructor; [| constructor]. repeat split; reflexivity.
    + exists rest. exact Hrest.
  - destruct (csv_preview_or_error broken Demo.secrets i Demo.csv eq_refl) as [_ Hraise].
    exact (proj1 (Hraise Demo.parser_error eq_refl)).
Defined.

(** C8 as the specification words it fails on a file with no [sku]
    column: pandas parses it and the preview is shown, and no chart is
    offered; the expander of the charts is closed empty and the run of the
    file ends, before the analyse button, with the error of a file that
    could not be read. *)
Lemma parsed_file_without_charts :
  let w := Demo.with_unique_skus (Demo.world_of (Demo.reply "[]") None) Demo.skus_of in
  let i := Demo.form_by_item in
  uploaded_file i = Some Demo.csv_by_item
  ∧ read_csv w Demo.csv_by_item = Ok Demo.csv_by_item
  ∧ unique_skus w Demo.csv = Ok ["LATTE"]
  ∧ on_upload w Demo.secrets i
    = ([Enter (Expander "Click to see Data Preview");
        StDataframe Demo.csv_by_item;
        Leave (Expander "Click to see Data Preview");
        Enter (Expander "Click to see All Sales Charts 📊");
        Leave (Expander "Click to see All Sales Charts 📊");
        StError "Error reading CSV file: 'sku'"],
       Ok tt)
  ∧ buttons (events (on_upload w Demo.secrets i)) = []
  ∧ model_calls (events (on_upload w Demo.secrets i)) = [].
Proof. repeat split; by vm_compute. Qed.

(** C9 on an alert whose type is neither [spike] nor [slump]: the card
    starts with the slump heading and the lines of the alert in the e-mail
    start with the slump line. *)
Lemma alert_type_is_two_valued_demo :
  let w := Demo.world_of (Demo.reply "[]") None in
  ∃ rest,
    render_alert w Demo.csv 25 25 Demo.surge EmptyString
    = (Markdown "---" :: Markdown "### 📉 SLUMP WARNING (>25%)" :: rest,
       Ok Demo.surge_lines).
Proof.
  intros w.
  destruct (alert_type_is_two_valued w Demo.csv 25 25 Demo.surge (JStr "surge")
              EmptyString eq_refl) as (_ & _ & _ & Hsent).
  destruct (Hsent Demo.surge_fields Demo.csv) as [[rest Hrest] _].
  - repeat split; reflexivity.
  - exists rest. etransitivity; [exact Hrest | by vm_compute].
Defined.

(** ** Further properties of the script *)

(** *** No exception leaves the script *)

Section Escapes.

Context {dataframe scalar : Type}.
Variable w : world dataframe scalar.

Lemma try_except_catch_all (m : M dataframe unit) (shown : exn → event dataframe) :
  outcome (try_except m [(is_Exception, fun e => emit (shown e))]) = Ok tt.
Proof. unfold outcome, try_except. by destruct m as [t [[] | e]]. Qed.

Lemma outcome_within {A} (b : block) (m : M dataframe A) :
  outcome (within b m) = outcome m.
Proof. unfold outcome, within. by destruct m. Qed.

Lemma analyze_total (secrets : gmap string string) (i : inputs)
    (df : dataframe) (data_as_text : string) :
  outcome (analyze w secrets i df data_as_text) = Ok tt.
Proof.
  unfold analyze. rewrite outcome_within.
  apply (try_except_catch_all _
           (fun e => StError ("An error occurred during analysis: " +:+ exn_text e))).
Qed.

Lemma on_upload_total (secrets : gmap string string) (i : inputs) :
  outcome (on_upload w secrets i) = Ok tt.
Proof.
  unfold on_upload. destruct (uploaded_file i) as [file |]; [| reflexivity].
  apply (try_except_catch_all _
           (fun e => StError ("Error reading CSV file: " +:+ exn_text e))).
Qed.

(** X1: whatever pandas, the model, the JSON parser and the SMTP server
    answer, a click on the analyse button, the block of the uploaded file
    and the whole script end normally: every exception is caught on the
    way and none leaves the script. *)
Theorem no_exception_escapes (i : inputs) :
  (∀ secrets df data_as_text, outcome (analyze w secrets i df data_as_text) = Ok tt)
  ∧ (∀ secrets, outcome (on_upload w secrets i) = Ok tt)
  ∧ outcome (script w i) = Ok tt.
Proof.
  split; [intros; apply analyze_total | split; [intros; apply on_upload_total |]].
  unfold script, form.
  destruct (secrets_file w) as [secrets |]; [| reflexivity].
  destruct (secrets !! "GEMINI_API_KEY") as [key |]; [| reflexivity].
  destruct (configure w key) as [e |]; [reflexivity |].
  pose proof (on_upload_total secrets i) as Htotal. unfold outcome in Htotal |- *.
  destruct (on_upload w secrets i) as [t r]. cbn in Htotal. subst r.
  by destruct (warn_on_slump i), (String.eqb (recipient_email i) EmptyString).
Qed.

(** X2: the three ways the script stops before the form (lines 37-54): no
    secrets file, no key of the model in it, or a model that cannot be
    configured.  Each shows the header and its own message and nothing
    else: no widget of the form, no upload, no call. *)
Theorem script_stops_before_the_form (i : inputs) :
  (secrets_file w = None →
   script w i
   = ([PageConfig "Autonomous Agent V5" "🤖";
       Title "🤖 Autonomous Sales Agent V5 (Demo Ready)";
       Caption "This AI agent can analyze sales and *autonomously* send email alerts.";
       Button "Reset Demo";
       Markdown "---";
       StError "CRITICAL ERROR: Could not find .streamlit/secrets.toml file.";
       StInfo "Please create this file and add your GEMINI_API_KEY."],
      Ok tt))
  ∧ (∀ secrets,
       secrets_file w = Some secrets →
       secrets !! "GEMINI_API_KEY" = None →
       script w i
       = ([PageConfig "Autonomous Agent V5" "🤖";
           Title "🤖 Autonomous Sales Agent V5 (Demo Ready)";
           Caption "This AI agent can analyze sales and *autonomously* send email alerts.";
           Button "Reset Demo";
           Markdown "---";
           StError "CRITICAL ERROR: 'GEMINI_API_KEY' not found in secrets.toml.";
           StInfo "Please add your Gemini API key to the .streamlit/secrets.toml file."],
          Ok tt))
  ∧ (∀ secrets key e,
       secrets_file w = Some secrets →
       secrets !! "GEMINI_API_KEY" = Some key →
       configure w key = Some e →
       script w i
       = ([PageConfig "Autonomous Agent V5" "🤖";
           Title "🤖 Autonomous Sales Agent V5 (Demo Ready)";
           Caption "This AI agent can analyze sales and *autonomously* send email alerts.";
           Button "Reset Demo";
           Markdown "---";
           StError ("Error configuring API: " +:+ exn_text e)],
          Ok tt)).
Proof.
  unfold script. split; [| split].
  - by intros ->.
  - by intros secrets -> ->.
  - by intros secrets key e -> -> ->.
Qed.

End Escapes.

(** *** Nothing is sent without a click *)

Section Quiet.

Context {dataframe scalar : Type}.
Variable w : world dataframe scalar.
Variable secrets : gmap string string.
Variable i : inputs.

Lemma quiet_events (t : list (event dataframe)) :
  Forall (λ ev, model_calls [ev] = [] ∧ send_email_calls [ev] = [] ∧ email_events [ev] = [])
    t →
  model_calls t = [] ∧ send_email_calls t = [] ∧ email_events t = [].
Proof.
  induction 1 as [| ev t (H1 & H2 & H3) _ (IH1 & IH2 & IH3)]; [done |].
  rewrite model_calls_cons, send_email_calls_cons, email_events_cons.
  by rewrite H1, H2, H3, IH1, IH2, IH3.
Qed.

Lemma sku_charts_quiet (df : dataframe) (skus : list scalar) :
  only (λ ev, model_calls [ev] = [] ∧ send_email_calls [ev] = [] ∧ email_events [ev] = [])
    (sku_charts w df skus).
Proof.
  induction skus as [| sku skus IH]; cbn [sku_charts]; only_steps; done.
Qed.

(** X3: with no file uploaded the block of the file does nothing; with a
    file and no click on "Analyze Sales Velocity" the run calls the model
    not once and makes no e-mail step, whatever pandas answers. *)
Theorem nothing_sent_without_a_click :
  (uploaded_file i = None → on_upload w secrets i = ([], Ok tt))
  ∧ (analyze_button i = false →
     model_calls (events (on_upload w secrets i)) = []
     ∧ send_email_calls (events (on_upload w secrets i)) = []
     ∧ email_events (events (on_upload w secrets i)) = []).
Proof.
  split.
  - unfold on_upload. by intros ->.
  - intros Hbutton. apply quiet_events. unfold on_upload. rewrite Hbutton.
    change (only (λ ev : event dataframe,
                    model_calls [ev] = [] ∧ send_email_calls [ev] = []
                    ∧ email_events [ev] = [])
              match uploaded_file i with
              | Some file =>
                  try_except
                    (df <- lift (read_csv w file) ;;
                     df <- try_except (lift (to_datetime w df))
                             [(is_Exception, fun e =>
                                 emit (StWarning ("Could not parse dates. Charts may be incorrect. Error: "
                                                  +:+ exn_text e)) ;;
                                 ret df)] ;;
                     within (Expander preview_label) (emit (StDataframe df)) ;;
                     within (Expander charts_label)
                       (unique_skus <- lift (unique_skus w df) ;;
                        sku_charts w df unique_skus) ;;
                     data_as_text <- lift (to_string w df) ;;
                     emit (Button "Analyze Sales Velocity") ;;
                     ret tt)
                    [(is_Exception, fun e =>
                        emit (StError ("Error reading CSV file: " +:+ exn_text e)))]
              | None => ret tt
              end).
    destruct (uploaded_file i) as [file |]; [| apply only_ret].
    only_steps; try done; try apply sku_charts_quiet; cbn [snd]; only_steps; done.
Qed.

End Quiet.

(** *** When the model fails *)

Section ModelFailure.

Context {dataframe scalar : Type}.
Variable w : world dataframe scalar.
Variable secrets : gmap string string.
Variable i : inputs.
Variable df : dataframe.

(** X4: when [generate_content] raises, the click shows "An error occurred
    during analysis" with the text of the exception and no report.  When the
    call returns a response whose [text] cannot be read, the inner handler
    reads [response.text] again for its own message and raises again: the
    click shows both "Error while processing alerts" and "An error occurred
    during analysis".  Neither makes an e-mail step. *)
Theorem model_failure_is_surfaced (data_as_text : string) (e : exn) :
  let prompt :=
    prompt data_as_text (business_context i)
      (alert_threshold i) (warn_on_slump i) (slump_threshold i) in
  let spinner :=
    Spinner (spinner_text (alert_threshold i) (warn_on_slump i) (slump_threshold i)) in
  (generate_content w prompt = Raise e →
   analyze w secrets i df data_as_text
   = ([Enter spinner;
       GenerateContent prompt;
       StError ("An error occurred during analysis: " +:+ exn_text e);
       Leave spinner],
      Ok tt))
  ∧ (generate_content w prompt = Ok (Raise e) →
     is_JSONDecodeError e = false →
     analyze w secrets i df data_as_text
     = ([Enter spinner;
         GenerateContent prompt;
         StSuccess "Analysis Complete!";
         Markdown "### 🤖 AI-Generated Visual Report";
         StError ("Error while processing alerts: " +:+ exn_text e);
         StError ("An error occurred during analysis: " +:+ exn_text e);
         Leave spinner],
        Ok tt)).
Proof.
  intros prompt spinner. split.
  - intros Hcall. unfold analyze. fold prompt spinner. rewrite Hcall. reflexivity.
  - intros Hcall Hclass. unfold analyze. fold prompt spinner. rewrite Hcall.
    unfold process_response. run. rewrite Hclass. reflexivity.
Qed.

(** X5: without [SENDER_EMAIL] in the secrets, a parsed reply whose report
    is rendered and that is to be sent at once ends in the handler of the
    report: the text of the spinner reads the secret before [send_email] is
    entered, so the click shows "Error while processing alerts" with the
    text of the [KeyError], then the raw reply, and [send_email] is not
    called. *)
Theorem missing_sender_ends_the_click (prompt subject_text text : string) (alerts : json)
    (t : list (event dataframe)) (email_body_text : string) :
  secrets !! "SENDER_EMAIL" = None →
  json_loads w (json_text text) = Ok alerts →
  build_report w df (alert_threshold i) (slump_threshold i) alerts
  = (t, Ok email_body_text) →
  recipient_email i ≠ EmptyString →
  auto_send_checkbox i = true →
  let run := process_response w secrets i df prompt subject_text (Ok text) in
  run = (t ++ [StInfo ("Autonomous mode enabled. Sending alert to `"
                       +:+ recipient_email i +:+ "`...");
               StError ("Error while processing alerts: "
                        +:+ missing_secret w "SENDER_EMAIL");
               StText ("Raw AI response: " +:+ text)],
         Ok tt)
  ∧ send_email_calls (events run) = send_email_calls t.
Proof.
  intros Hsender Hparse Hreport Hrecipient Hticked run. subst run.
  rewrite (process_response_ok w secrets i df prompt subject_text text), Hparse, Hreport.
  rewrite send_or_review_without_sender; [| exact Hsender |].
  2: { unfold auto_send. rewrite Hticked.
       by destruct (String.eqb_spec (recipient_email i) EmptyString). }
  unfold handled. cbn [is_JSONDecodeError class_of]. split; [reflexivity |].
  unfold events. cbn [fst]. rewrite send_email_calls_app. cbn. by rewrite app_nil_r.
Qed.


End ModelFailure.

(** *** Replies that are false in Python, slumps that were not asked for *)

Section Replies.

Context {dataframe scalar : Type}.
Variable w : world dataframe scalar.
Variable df : dataframe.

(** X7: [if not alerts] takes every value that is false in Python for
    the empty list: [null], [false], [0], [0.0], the empty string, the empty
    list and the empty object all give the report with no warning and its
    e-mail. *)
Theorem falsy_reply_reports_no_warning (alert_threshold slump_threshold : Z) (alerts : json) :
  (Py.truthy alerts = false
   ↔ alerts ∈ [JNull; JBool false; JInt 0; JFloat "0.0"; JFloat "-0.0";
               JStr EmptyString; JArr []; JObj []])
  ∧ (Py.truthy alerts = false →
     build_report w df alert_threshold slump_threshold alerts
     = ([Markdown "All SKUs are operating within normal sales velocity. No warnings to report.";
         Markdown "---"],
        Ok ("Hi Team," +:+ nl +:+ nl
            +:+ "My analysis is complete. Here are the findings:" +:+ nl +:+ nl
            +:+ "All SKUs are operating within normal sales velocity. No warnings to report."
            +:+ nl +:+ nl +:+ "Best," +:+ nl +:+ "Sales Velocity Agent"))).
Proof.
  split.
  - split.
    + intros Hfalsy. destruct alerts as [| [] | z | r | s | [] | []]; cbn in Hfalsy;
        try discriminate; rewrite ?negb_false_iff in Hfalsy;
        try (apply Z.eqb_eq in Hfalsy as ->);
        try (apply orb_true_iff in Hfalsy as [->%String.eqb_eq | ->%String.eqb_eq]);
        try (apply String.eqb_eq in Hfalsy as ->);
        set_solver.
    + intros Hin. repeat (apply elem_of_cons in Hin as [-> | Hin]; [reflexivity |]).
      by apply elem_of_nil in Hin.
  - intros Hfalsy. rewrite (build_report_falsy w df _ _ alerts Hfalsy).
    f_equal; f_equal; by vm_compute.
Qed.

(** X8: with the slump box unticked the prompt asks for no slump, and the
    slump threshold is 25 whatever the slider holds; an alert of another
    type than [spike] that the model returns all the same is shown as a
    slump warning over 25%. *)
Theorem unasked_slump_is_shown (i : inputs) (alert type : json) (email_body_text : string) :
  slump_checkbox i = false →
  Py.getitem alert "type" = Ok type →
  type ≠ JStr "spike" →
  slump_threshold i = 25
  ∧ ∃ rest,
      events (render_alert w df (alert_threshold i) (slump_threshold i) alert email_body_text)
      = Markdown "---" :: Markdown "### 📉 SLUMP WARNING (>25%)" :: rest.
Proof.
  intros Hbox Htype Hother.
  assert (Hslump : slump_threshold i = 25).
  { unfold slump_threshold, warn_on_slump. by rewrite Hbox. }
  split; [exact Hslump |]. rewrite Hslump.
  assert (Hbranch : Py.eq_str type "spike" = false).
  { destruct type; try reflexivity. cbn. apply String.eqb_neq. congruence. }
  unfold render_alert. rewrite Htype. rewrite events_bind.
  cbn [lift events outcome fst snd app]. rewrite events_bind. rewrite Hbranch.
  eexists. reflexivity.
Qed.

End Replies.

(** *** Replies without a fence *)

Lemma startswith_shorter (p q s : string) :
  startswith (p +:+ q) s = true → startswith p s = true.
Proof.
  revert s. induction p as [| a p IH]; intros s; [reflexivity |].
  rewrite append_cons. destruct s as [| b s]; [done |]. cbn.
  destruct (Ascii.eqb a b); [apply IH | done].
Qed.

Lemma contains_shorter (p q s : string) :
  contains p s = false → contains (p +:+ q) s = false.
Proof.
  induction s as [| c s IH].
  - cbn. rewrite !orb_false_r. intros Hp.
    destruct (startswith (p +:+ q) EmptyString) eqn:Hpq; [| reflexivity].
    apply startswith_shorter in Hpq. congruence.
  - rewrite !contains_cons. intros [Hhere Hlater]%orb_false_elim.
    rewrite (IH Hlater), orb_false_r.
    destruct (startswith (p +:+ q) (String c s)) eqn:Hpq; [| reflexivity].
    apply startswith_shorter in Hpq. congruence.
Qed.

(** X9: a reply with no fence in it is parsed as it is, its surrounding
    whitespace removed: the fence the prompt asks for is not required. *)
Theorem unfenced_reply_is_parsed (text : string) :
  contains "```" (strip text) = false →
  json_text text = strip text.
Proof.
  intros Hfence. unfold json_text.
  rewrite (replace_absent "```json" EmptyString (strip text)).
  - by apply replace_absent.
  - by apply (contains_shorter "```" "json").
Qed.

(** *** A rejected login *)

Section Login.

Context {dataframe scalar : Type}.
Variable w : world dataframe scalar.
Variable secrets : gmap string string.

(** X10: when the server rejects the login with its usual text, the
    session is still closed with QUIT, no message is sent, the error names
    the application password and the answer is "Email credentials
    failed.". *)
Theorem rejected_login_closes_the_session
    (recipient subject body sender password : string) (e : exn) :
  secrets !! "SENDER_EMAIL" = Some sender →
  secrets !! "SENDER_PASSWORD" = Some password →
  compose w (Email body subject sender recipient) = None →
  smtp_connect w "smtp.gmail.com" 587 = None →
  smtp_starttls w = None →
  smtp_login w sender password = Some e →
  smtp_quit w = None →
  contains "Username and Password not accepted" (exn_text e) = true →
  send_email w secrets recipient subject body
  = ([CallSendEmail recipient subject body;
      SmtpConnect "smtp.gmail.com" 587;
      SmtpStartTLS;
      SmtpLogin sender password;
      SmtpQuit;
      StError "Email Send Error: Your SENDER_EMAIL or SENDER_PASSWORD in secrets.toml is incorrect. Please check your 16-digit App Password."],
     Ok (false, "Email credentials failed.")).
Proof.
  intros Hsender Hpassword Hcompose Hconnect Htls Hlogin Hquit Htext.
  rewrite (send_email_with_credentials w secrets _ _ _ sender password Hsender Hpassword).
  rewrite deliver_cases. cbn zeta. rewrite Hcompose, Hconnect, Htls, Hlogin, Hquit.
  unfold failure_answer, credential_rejection. rewrite Htext. reflexivity.
Qed.

End Login.

(** *** Resetting twice *)

(** X11: [clear_form] is idempotent: a second reset changes nothing. *)
Theorem clear_form_idempotent (session_state : gmap string widget_value) :
  clear_form (clear_form session_state) = clear_form session_state.
Proof.
  assert (Hfive : ∀ m : gmap string widget_value,
    m !! "recipient_email" = Some (VStr EmptyString) →
    m !! "business_context" = Some (VStr EmptyString) →
    m !! "alert_slider" = Some (VInt 25) →
    m !! "slump_checkbox" = Some (VBool false) →
    m !! "slump_slider" = Some (VInt 25) →
    <["slump_slider" := VInt 25]>
      (<["slump_checkbox" := VBool false]>
         (<["alert_slider" := VInt 25]>
            (<["business_context" := VStr EmptyString]>
               (<["recipient_email" := VStr EmptyString]> m)))) = m).
  { intros m H1 H2 H3 H4 H5.
    by rewrite (insert_id m _ _ H1), (insert_id m _ _ H2), (insert_id m _ _ H3),
      (insert_id m _ _ H4), (insert_id m _ _ H5). }
  unfold clear_form.
  set (five := <["slump_slider" := VInt 25]>
      (<["slump_checkbox" := VBool false]>
         (<["alert_slider" := VInt 25]>
            (<["business_context" := VStr EmptyString]>
               (<["recipient_email" := VStr EmptyString]> session_state))))).
  assert (H1 : five !! "recipient_email" = Some (VStr EmptyString))
    by (subst five; by simplify_map_eq).
  assert (H2 : five !! "business_context" = Some (VStr EmptyString))
    by (subst five; by simplify_map_eq).
  assert (H3 : five !! "alert_slider" = Some (VInt 25))
    by (subst five; by simplify_map_eq).
  assert (H4 : five !! "slump_checkbox" = Some (VBool false))
    by (subst five; by simplify_map_eq).
  assert (H5 : five !! "slump_slider" = Some (VInt 25))
    by (subst five; by simplify_map_eq).
  destruct (decide (is_Some (five !! "auto_send_checkbox"))) as [Hsome | Hnone].
  - rewrite (Hfive (<["auto_send_checkbox" := VBool false]> five));
      try (by rewrite lookup_insert_ne).
    destruct (decide (is_Some (<["auto_send_checkbox" := VBool false]> five
                               !! "auto_send_checkbox"))) as [_ | Hnot].
    + apply insert_insert_eq.
    + exfalso. apply Hnot. rewrite lookup_insert_eq. by eexists.
  - rewrite (Hfive five H1 H2 H3 H4 H5).
    by destruct (decide (is_Some (five !! "auto_send_checkbox"))).
Qed.

(** ** The further properties on concrete runs *)

(** X2 on a machine with no secrets file. *)
Lemma script_stops_before_the_form_demo :
  let w := Demo.world_with None (Ok (Ok (Demo.reply "[]"))) Demo.parse None in
  let i := Demo.form EmptyString false true true false in
  buttons (events (script w i)) = ["Reset Demo"]
  ∧ model_calls (events (script w i)) = [].
Proof.
  intros w i.
  destruct (script_stops_before_the_form w i) as (Hfile & _).
  rewrite (Hfile eq_refl). split; reflexivity.
Defined.

(** X3 on a file that is uploaded and not analysed. *)
Lemma nothing_sent_without_a_click_demo :
  let w := Demo.world_of (Demo.reply "[]") None in
  let i := Demo.form EmptyString false true false false in
  model_calls (events (on_upload w Demo.secrets i)) = []
  ∧ send_email_calls (events (on_upload w Demo.secrets i)) = [].
Proof.
  intros w i.
  destruct (nothing_sent_without_a_click w Demo.secrets i) as (_ & Hquiet).
  destruct (Hquiet eq_refl) as (Hmodel & Hcalls & _).
  split; [exact Hmodel | exact Hcalls].
Defined.

(** X4 on a model that is out of quota. *)
Lemma model_failure_is_surfaced_demo :
  let e := Exn (OtherException "ResourceExhausted") "429 Quota exceeded" in
  let w := Demo.world_with (Some Demo.secrets) (Raise e) Demo.parse None in
  let i := Demo.form EmptyString false true true false in
  analyze w Demo.secrets i Demo.csv Demo.csv
  = ([Enter (Spinner "AI is analyzing for spikes > 25%...");
      GenerateContent (prompt Demo.csv EmptyString 25 false 25);
      StError "An error occurred during analysis: 429 Quota exceeded";
      Leave (Spinner "AI is analyzing for spikes > 25%...")],
     Ok tt).
Proof.
  intros e w i.
  destruct (model_failure_is_surfaced w Demo.secrets i Demo.csv Demo.csv e) as (Hcall & _).
  etransitivity; [exact (Hcall eq_refl) | by vm_compute].
Defined.

(** X5 on secrets with no sender, an empty list and the box ticked. *)
Lemma missing_sender_ends_the_click_demo :
  let secrets : gmap string string := <["GEMINI_API_KEY" := "gemini-key"]> ∅ in
  let text := Demo.reply "[]" in
  let w := Demo.world_with (Some secrets) (Ok (Ok text)) Demo.parse None in
  let i := Demo.form EmptyString false true true false in
  process_response w secrets i Demo.csv "prompt" (subject_text 25 false) (Ok text)
  = ([Markdown "All SKUs are operating within normal sales velocity. No warnings to report.";
      Markdown "---";
      StInfo "Autonomous mode enabled. Sending alert to `ops@example.com`...";
      StError "Error while processing alerts: st.secrets has no key 'SENDER_EMAIL'";
      StText ("Raw AI response: " +:+ text)],
     Ok tt).
Proof.
  intros secrets text w i.
  destruct (missing_sender_ends_the_click w secrets i Demo.csv "prompt" (subject_text 25 false)
              text (JArr [])
              [Markdown "All SKUs are operating within normal sales velocity. No warnings to report.";
               Markdown "---"]
              Demo.no_warnings_email) as [Hrun _].
  - reflexivity.
  - by vm_compute.
  - by vm_compute.
  - discriminate.
  - reflexivity.
  - etransitivity; [exact Hrun | by vm_compute].
Defined.


(** X7 on the reply [{}]. *)
Lemma falsy_reply_reports_no_warning_demo :
  let w := Demo.world_of "{}" None in
  build_report w Demo.csv 25 25 (JObj [])
  = ([Markdown "All SKUs are operating within normal sales velocity. No warnings to report.";
      Markdown "---"],
     Ok Demo.no_warnings_email).
Proof.
  intros w.
  destruct (falsy_reply_reports_no_warning w Demo.csv 25 25 (JObj [])) as [_ Hreport].
  exact (Hreport eq_refl).
Defined.

(** X8 on a slump returned with the slump box unticked and its slider at 40. *)
Lemma unasked_slump_is_shown_demo :
  let w := Demo.world_of (Demo.reply "[]") None in
  let i := {| uploaded_file := Some Demo.csv;
              recipient_email := "ops@example.com";
              business_context := EmptyString;
              alert_slider := 30;
              slump_checkbox := false;
              slump_slider := 40;
              auto_send_checkbox := false;
              analyze_button := true;
              send_button := false |} in
  slump_threshold i = 25
  ∧ ∃ rest,
      events (render_alert w Demo.csv (alert_threshold i) (slump_threshold i)
                (JObj [("type", JStr "slump")]) EmptyString)
      = Markdown "---" :: Markdown "### 📉 SLUMP WARNING (>25%)" :: rest.
Proof.
  intros w i.
  apply (unasked_slump_is_shown w Demo.csv i (JObj [("type", JStr "slump")]) (JStr "slump")
           EmptyString); [reflexivity | reflexivity | discriminate].
Defined.

(** X9 on a reply that is the bare list. *)
Lemma unfenced_reply_is_parsed_demo :
  json_text (nl +:+ "[]" +:+ nl) = "[]".
Proof.
  etransitivity.
  - apply unfenced_reply_is_parsed. by vm_compute.
  - by vm_compute.
Defined.

(** X10 on a server that rejects the application password. *)
Lemma rejected_login_closes_the_session_demo :
  let w := Demo.world_of (Demo.reply "[]") (Some Demo.bad_credentials) in
  events (send_email w Demo.secrets "ops@example.com" "Subject" "Body")
  = [CallSendEmail "ops@example.com" "Subject" "Body";
     SmtpConnect "smtp.gmail.com" 587;
     SmtpStartTLS;
     SmtpLogin "agent@example.com" "abcdabcdabcdabcd";
     SmtpQuit;
     StError "Email Send Error: Your SENDER_EMAIL or SENDER_PASSWORD in secrets.toml is incorrect. Please check your 16-digit App Password."].
Proof.
  intros w.
  rewrite (rejected_login_closes_the_session w Demo.secrets "ops@example.com" "Subject" "Body"
             "agent@example.com" "abcdabcdabcdabcd" Demo.bad_credentials);
    reflexivity.
Defined.
